(** * pbsql: SQL statement builders driven by struct tags

    A shallow embedding of [main.go] (package [pbsql]) and the properties
    of the four builders [BuildCreateQuery], [BuildDeleteQuery],
    [BuildReadQuery] and [BuildUpdateQuery] together with the two
    primitives [notDefault] and [getDefault].

    Modelling choices.
    - A Go [string] is a [string] (a sequence of bytes); [strings.Builder]
      writes and [fmt.Fprintf] with [%s] verbs are concatenations.
    - A struct seen through [reflect] is the list of its direct fields in
      declaration order.  Each field carries what the builders read of it:
      its identifier, the name of its type, its tag, whether [reflect]
      may hand out its value ([CanInterface]) and that value.  Structs
      have no embedded fields, so that [FieldByName] finds direct fields
      only.
    - The environment variable read by BuildReadQuery and the field mask of
      BuildUpdateQuery (a [map[string]int32], here a [gmap string Z]) are
      arguments.
    - A panic is the [Panic] outcome of the [outcome] monad; a call that
      runs to its [return] is [Ok].
    - [sqlx.Named], the placeholder resolver, is a parameter of the
      builders; the text they hand to it is [Build*Query_result] (the Go
      local named [result] in three of the four builders). *)

From Stdlib Require Import ZArith Ascii String List Bool Lia.
From Stdlib Require Import Floats.SpecFloat.
From stdpp Require Import gmap strings list.

Local Open Scope Z_scope.

(** ** Outcomes of a call: normal return or panic *)

Inductive outcome (A : Type) : Type :=
| Ok (a : A)
| Panic (msg : string).

Arguments Ok {A} a.
Arguments Panic {A} msg.

#[global] Instance outcome_ret : MRet outcome := fun A a => Ok a.

#[global] Instance outcome_bind : MBind outcome := fun A B k m =>
  match m with
  | Ok a => k a
  | Panic msg => Panic msg
  end.

Definition is_Ok {A : Type} (m : outcome A) : bool :=
  match m with Ok _ => true | Panic _ => false end.

(** ** Go values as the builders see them *)

(** The dynamic value held by an [interface{}].  An [int32] is a [Z] (only
    its comparison with [0] is used), a [float64] an IEEE 754 value.  The
    builders never look inside a value of another type; [VInt], [VFloat]
    and [VBool] keep the number of a field of another integer type
    ([int64], [uint8], ...), of a [float32] and of a [bool], [VOther] is
    any other value (pointer, slice, struct, ...). *)
Inductive GoValue : Type :=
| VInt32 (n : Z)
| VFloat64 (x : spec_float)
| VString (s : string)
| VInt (n : Z)
| VFloat (x : spec_float)
| VBool (b : bool)
| VOther.

(** [interface{}]: [None] is the nil interface. *)
Definition iface : Type := option GoValue.

(** [reflect.StructTag], as its key/value pairs in the order written. *)
Definition StructTag : Type := list (string * string).

(** [tag.Get(key)]: the value of the first pair with that key, the empty
    string when there is none. *)
Fixpoint Tag_Get (tag : StructTag) (key : string) : string :=
  match tag with
  | [] => ""
  | (k, v) :: rest => if String.eqb k key then v else Tag_Get rest key
  end.

(** One field of the struct: [t.Field(i)] and [v.Field(i)] together. *)
Record StructField : Type := {
  Name : string;          (* typeField.Name *)
  TypeName : string;      (* valField.Type().Name() *)
  Tag : StructTag;        (* typeField.Tag *)
  CanInterface : bool;    (* valField.CanInterface(): the field is exported *)
  Value : iface           (* what valField.Interface() returns *)
}.

(** [valField.Interface()] panics on a field that [reflect] may not read. *)
Definition Interface (f : StructField) : outcome iface :=
  if CanInterface f then Ok (Value f)
  else Panic "reflect.Value.Interface: cannot return value obtained from unexported field or method".

(** [t.FieldByName(name)] on a struct without embedded fields. *)
Definition FieldByName (fs : list StructField) (name : string) : option StructField :=
  List.find (fun f => String.eqb (Name f) name) fs.

(** ** [strings] functions *)

Fixpoint HasPrefix (s prefix : string) {struct prefix} : bool :=
  match prefix, s with
  | EmptyString, _ => true
  | String p prefix', String c s' => Ascii.eqb c p && HasPrefix s' prefix'
  | String _ _, EmptyString => false
  end.

(** [strings.Replace(s, old, new, n)] for a non-empty [old]: the first [n]
    non-overlapping occurrences, all of them when [n < 0].  [skip] counts
    the bytes of a matched occurrence still to be dropped. *)
Fixpoint replace_from (old new : string) (skip : nat) (n : Z) (s : string) : string :=
  match s with
  | EmptyString => EmptyString
  | String c s' =>
    match skip with
    | S k => replace_from old new k n s'
    | O =>
      if n =? 0 then s
      else if HasPrefix s old
           then new +:+ replace_from old new (String.length old - 1) (n - 1) s'
           else String c (replace_from old new 0 n s')
    end
  end.

Definition Replace (s old new : string) (n : Z) : string :=
  replace_from old new 0 n s.

Definition ReplaceAll (s old new : string) : string :=
  Replace s old new (-1).

(** ** The two primitives *)

(** [notDefault]: a failed type assertion [fieldVal.(T)] panics. *)
Definition notDefault (typeName : string) (fieldVal : iface) : outcome bool :=
  if String.eqb typeName "int32" then
    match fieldVal with
    | Some (VInt32 n) => Ok (negb (n =? 0))
    | _ => Panic "interface conversion: interface {} is not int32"
    end
  else if String.eqb typeName "float64" then
    match fieldVal with
    | Some (VFloat64 x) => Ok (negb (SFeqb x (S754_zero false)))
    | _ => Panic "interface conversion: interface {} is not float64"
    end
  else if String.eqb typeName "string" then
    match fieldVal with
    | Some (VString s) => Ok (negb (String.eqb s ""))
    | _ => Panic "interface conversion: interface {} is not string"
    end
  else
    Ok (match fieldVal with Some _ => true | None => false end).

Definition integer_type_names : list string :=
  ["byte"; "rune"; "uint"; "int"; "uint8"; "uint16"; "uint32"; "uint64";
   "int8"; "int16"; "int32"; "int64"].

Definition float_type_names : list string := ["float32"; "float64"].

Definition name_in (names : list string) (typeName : string) : bool :=
  existsb (String.eqb typeName) names.

Definition getDefault (typeName : string) : outcome string :=
  if name_in integer_type_names typeName then Ok "0"
  else if name_in float_type_names typeName then Ok "0.0"
  else if String.eqb typeName "bool" then Ok "0"
  else if String.eqb typeName "string" then Ok "''"
  else Panic ("couldn't determine default value for provided type " +:+ typeName).

(** ** The builders *)

Definition dbName_of (f : StructField) : string := Tag_Get (Tag f) "db".

Definition isPrimaryKey_of (f : StructField) : bool :=
  negb (String.eqb (Tag_Get (Tag f) "primary_key") "").

Definition nullable_of (f : StructField) : string := Tag_Get (Tag f) "nullable".

(** [_, ok := fieldMask[name]] *)
Definition mask_has (fieldMask : gmap string Z) (name : string) : bool :=
  match fieldMask !! name with
  | Some _ => true
  | None => false
  end.

(** *** [BuildCreateQuery] *)

(** The [for] loop of [BuildCreateQuery] from index [i] on, threading the
    two builders [cols] and [vals]. *)
Fixpoint create_loop (i : nat) (fs : list StructField) (cols vals : string)
  : outcome (string * string) :=
  match fs with
  | [] => Ok (cols, vals)
  | f :: rest =>
    let tag := dbName_of f in
    fieldVal ← Interface f;
    nd ← notDefault (TypeName f) fieldVal;
    if nd && negb (String.eqb tag "") && negb (isPrimaryKey_of f) then
      let sep := if Nat.eqb i 0 then "" else ", " in
      create_loop (S i) rest (cols +:+ sep +:+ tag) (vals +:+ sep +:+ ":" +:+ tag)
    else
      create_loop (S i) rest cols vals
  end.

Definition BuildCreateQuery_result (target : string) (source : list StructField)
  : outcome string :=
  '(cols, vals) ← create_loop 0 source ("INSERT INTO " +:+ target +:+ " (") "(";
  let vals := vals +:+ ")" in
  let cols := cols +:+ ") VALUES " +:+ vals in
  Ok (ReplaceAll cols "(, " "(").

(** *** [BuildDeleteQuery] *)

(** The [for] loop of [BuildDeleteQuery]: it stops at the first
    primary-key-tagged field. *)
Fixpoint delete_loop (fs : list StructField) (builder : string) : string :=
  match fs with
  | [] => builder
  | f :: rest =>
    if isPrimaryKey_of f then
      let dbName := dbName_of f in
      builder +:+ dbName +:+ " = :" +:+ dbName
    else delete_loop rest builder
  end.

Definition BuildDeleteQuery_result (target : string) (source : list StructField) : string :=
  let builder :=
    match FieldByName source "IsActive" with
    | Some isActive =>
      let dbName := dbName_of isActive in
      "UPDATE " +:+ target +:+ " SET " +:+ dbName +:+ " = :" +:+ dbName +:+ " WHERE "
    | None => "DELETE FROM " +:+ target +:+ " WHERE "
    end in
  delete_loop source builder.

(** *** [BuildReadQuery] *)

(** [sqlDriver] is the value of the environment variable [GRPC_SQL_DRIVER]. *)
Definition nullHandler_of (sqlDriver : string) : string :=
  if String.eqb sqlDriver "pgsql" then "coalesce(" else "ifnull(".

(** The [for] loop of [BuildReadQuery], threading [fields] and [predicate]. *)
Fixpoint read_loop (nullHandler : string) (fs : list StructField)
    (fields predicate : string) : outcome (string * string) :=
  match fs with
  | [] => Ok (fields, predicate)
  | f :: rest =>
    let typeName := TypeName f in
    let dbName := dbName_of f in
    fields ←
      (if negb (String.eqb (nullable_of f) "") then
         d ← getDefault typeName;
         Ok (fields +:+ nullHandler +:+ dbName +:+ ", " +:+ d +:+ ") as " +:+ dbName +:+ ", ")
       else if negb (String.eqb dbName "") then
         Ok (fields +:+ dbName +:+ ", ")
       else Ok fields);
    cond ←
      (if CanInterface f then
         fieldVal ← Interface f;
         nd ← notDefault typeName fieldVal;
         Ok (nd && negb (String.eqb dbName ""))
       else Ok false);
    if cond : bool then
      let predicate := predicate +:+ " AND " +:+ dbName in
      let predicate :=
        if String.eqb typeName "string"
        then predicate +:+ " LIKE :" +:+ dbName
        else predicate +:+ " = :" +:+ dbName in
      read_loop nullHandler rest fields predicate
    else read_loop nullHandler rest fields predicate
  end.

Definition BuildReadQuery_result (sqlDriver target : string) (source : list StructField)
  : outcome string :=
  '(fields, predicate) ← read_loop (nullHandler_of sqlDriver) source "" " WHERE true";
  let core := "SELECT " +:+ fields +:+ "FROM " +:+ target +:+ predicate in
  Ok (Replace core ", FROM" " FROM" 1).

(** *** [BuildUpdateQuery] *)

(** The [for] loop of [BuildUpdateQuery], threading [builder] and
    [predicate]. *)
Fixpoint update_loop (fieldMask : gmap string Z) (fs : list StructField)
    (builder predicate : string) : string * string :=
  match fs with
  | [] => (builder, predicate)
  | f :: rest =>
    let dbName := dbName_of f in
    if CanInterface f && negb (String.eqb dbName "") then
      if isPrimaryKey_of f then
        update_loop fieldMask rest builder
          (predicate +:+ "WHERE " +:+ dbName +:+ " = :" +:+ dbName)
      else if mask_has fieldMask (Name f) then
        update_loop fieldMask rest
          (builder +:+ dbName +:+ " = :" +:+ dbName +:+ ",") predicate
      else update_loop fieldMask rest builder predicate
    else update_loop fieldMask rest builder predicate
  end.

Definition BuildUpdateQuery_result (target : string) (source : list StructField)
    (fieldMask : gmap string Z) : string :=
  let '(builder, predicate) :=
    update_loop fieldMask source ("UPDATE " +:+ target +:+ " SET ") "" in
  let builder := builder +:+ predicate in
  Replace builder ", WHERE" " WHERE" 1.

(** *** The builders with the placeholder resolver *)

Section Resolver.

(** What [sqlx.Named] returns: the bound query, its arguments and an
    error ([None] is [nil]). *)
Definition NamedResult : Type := string * list iface * option string.

Variable Named : string -> list StructField -> NamedResult.

Definition BuildCreateQuery (target : string) (source : list StructField)
  : outcome NamedResult :=
  result ← BuildCreateQuery_result target source;
  Ok (Named result source).

Definition BuildDeleteQuery (target : string) (source : list StructField)
  : outcome NamedResult :=
  Ok (Named (BuildDeleteQuery_result target source) source).


Definition BuildUpdateQuery (target : string) (source : list StructField)
    (fieldMask : gmap string Z) : outcome NamedResult :=
  Ok (Named (BuildUpdateQuery_result target source fieldMask) source).

End Resolver.

(** ** What the loops build, stated without accumulators *)

Definition concat_strings (l : list string) : string := fold_right String.append "" l.

(** *** The zero-value test on a field *)

(** [notDefault] on the field's own type name and value; a panic counts as
    [false] here, and [typed_value] excludes it. *)
Definition nonzero (f : StructField) : bool :=
  match notDefault (TypeName f) (Value f) with
  | Ok b => b
  | Panic _ => false
  end.

(** The type assertion of [notDefault] succeeds on the field: its value has
    the type that its type name announces. *)
Definition typed_value (f : StructField) : bool :=
  is_Ok (notDefault (TypeName f) (Value f)).

(** *** The type names [getDefault] knows *)


(** *** Create: the inserted columns *)

(** [reflect] can read the field and the type assertion of [notDefault]
    succeeds on it: the loop of BuildCreateQuery does not panic there. *)
Definition create_ok (f : StructField) : bool := CanInterface f && typed_value f.

(** The condition of the [if] in the loop of BuildCreateQuery. *)
Definition insertable (f : StructField) : bool :=
  nonzero f && negb (String.eqb (dbName_of f) "") && negb (isPrimaryKey_of f).

Definition inserted_columns (fs : list StructField) : list string :=
  map dbName_of (List.filter insertable fs).

Definition placeholders (cols : list string) : list string :=
  map (fun c => ":" +:+ c) cols.

(** The separator that the loop writes before the first inserted column
    when that column is not the first field of the struct. *)
Definition create_lead (fs : list StructField) : string :=
  match fs with
  | [] => ""
  | f :: _ =>
    if insertable f then ""
    else match inserted_columns fs with
         | [] => ""
         | _ :: _ => ", "
         end
  end.

(** *** Delete: the identity predicate *)

(** The clause of the first primary-key-tagged field, nothing when no field
    is primary-key-tagged. *)
Definition pk_clause (fs : list StructField) : string :=
  match List.find isPrimaryKey_of fs with
  | Some f => dbName_of f +:+ " = :" +:+ dbName_of f
  | None => ""
  end.


(** *** Read: projection and predicate *)

Definition default_literal (typeName : string) : string :=
  match getDefault typeName with
  | Ok d => d
  | Panic _ => ""
  end.

Definition projection_item (nullHandler : string) (f : StructField) : string :=
  if negb (String.eqb (nullable_of f) "") then
    nullHandler +:+ dbName_of f +:+ ", " +:+ default_literal (TypeName f) +:+ ") as "
    +:+ dbName_of f +:+ ", "
  else if negb (String.eqb (dbName_of f) "") then dbName_of f +:+ ", "
  else "".

Definition has_filter (f : StructField) : bool :=
  CanInterface f && nonzero f && negb (String.eqb (dbName_of f) "").

Definition filter_item (f : StructField) : string :=
  " AND " +:+ dbName_of f
  +:+ (if String.eqb (TypeName f) "string" then " LIKE :" else " = :") +:+ dbName_of f.

Definition projection (nullHandler : string) (fs : list StructField) : string :=
  concat_strings (map (projection_item nullHandler) fs).

Definition filters (fs : list StructField) : string :=
  concat_strings (map filter_item (List.filter has_filter fs)).

(** Neither [getDefault] nor [notDefault] panics on the field in the loop
    of BuildReadQuery. *)
Definition read_ok (f : StructField) : bool :=
  (String.eqb (nullable_of f) "" || is_Ok (getDefault (TypeName f)))
  && (negb (CanInterface f) || typed_value f).

(** *** Update: the SET terms and the WHERE clauses *)

(** The field passes the guard of the loop and is primary-key-tagged. *)
Definition is_where_field (f : StructField) : bool :=
  CanInterface f && negb (String.eqb (dbName_of f) "") && isPrimaryKey_of f.

(** The field passes the guard, is not primary-key-tagged and its
    identifier is a key of the mask. *)
Definition is_set_field (fieldMask : gmap string Z) (f : StructField) : bool :=
  CanInterface f && negb (String.eqb (dbName_of f) "") && negb (isPrimaryKey_of f)
  && mask_has fieldMask (Name f).

Definition set_clause (f : StructField) : string :=
  dbName_of f +:+ " = :" +:+ dbName_of f +:+ ",".

Definition where_clause (f : StructField) : string :=
  "WHERE " +:+ dbName_of f +:+ " = :" +:+ dbName_of f.

Definition set_clauses (fieldMask : gmap string Z) (fs : list StructField) : string :=
  concat_strings (map set_clause (List.filter (is_set_field fieldMask) fs)).

Definition where_clauses (fs : list StructField) : string :=
  concat_strings (map where_clause (List.filter is_where_field fs)).

(** Two fields that differ at most in their current value. *)
Definition same_declaration (f g : StructField) : Prop :=
  Name f = Name g /\ TypeName f = TypeName g /\ Tag f = Tag g
  /\ CanInterface f = CanInterface g.

(** *** Names and texts that the clean-up replacements leave alone *)

(** [no_char c s]: the byte [c] does not occur in [s]. *)
Fixpoint no_char (c : ascii) (s : string) : bool :=
  match s with
  | EmptyString => true
  | String c' s' => negb (Ascii.eqb c' c) && no_char c s'
  end.

(** A name without comma, opening parenthesis or blank: the clean-up
    replacements of the builders cannot match inside it or across its
    ends. *)
Definition sql_name (s : string) : bool :=
  no_char "," s && no_char "(" s && no_char " " s.

(** Every column name of the record is a plain name. *)
Definition update_names_ok (fs : list StructField) : Prop :=
  Forall (fun f => dbName_of f <> "" -> sql_name (dbName_of f) = true) fs.

(** [s] begins with the byte [c]. *)
Definition starts_with (c : ascii) (s : string) : bool :=
  match s with
  | String x _ => Ascii.eqb x c
  | EmptyString => false
  end.

(** No occurrence of [p] can begin before [W] and end inside it: [W] has
    no non-empty suffix of [p] as a prefix. *)
Fixpoint no_straddle (W p : string) : bool :=
  match p with
  | EmptyString => true
  | String _ p' => negb (HasPrefix W p) && no_straddle W p'
  end.

(** [old] occurs in [A]. *)
Definition contains (A old : string) : Prop :=
  exists X Y, A = X +:+ old +:+ Y.

(** ** Records used as concrete inputs *)

Definition mkField (name typeName : string) (tag : StructTag) (v : iface) : StructField :=
  {| Name := name; TypeName := typeName; Tag := tag; CanInterface := true; Value := v |}.

Definition f64 (m : positive) (e : Z) : spec_float := S754_finite false m e.

(** [TestStruct] of [main_test.go] with the values [TestMain] stores. *)
Definition TestStruct : list StructField :=
  [ mkField "ID" "int32" [("db", "id"); ("primary_key", "y")] (Some (VInt32 1));
    mkField "Name" "string" [("db", "name"); ("nullable", "y")] (Some (VString ""));
    mkField "Date" "string" [("db", "date"); ("nullable", "y")] (Some (VString "2019-01-01"));
    mkField "GeoLat" "float64" [("db", "geolocation_lat"); ("nullable", "y")]
      (Some (VFloat64 (f64 8687443681197687 (-46))));
    mkField "GeoLng" "float64" [("db", "geolocation_lng"); ("nullable", "y")]
      (Some (VFloat64 (f64 5755468382384161 (-43))));
    mkField "IsActive" "int32" [("db", "is_active")] (Some (VInt32 0));
    mkField "PropertyID" "int32"
      [("db", "property_id"); ("foreign_key", "property_id"); ("foreign_table", "properties")]
      (Some (VInt32 0));
    mkField "NotEquals" "" [] (Some VOther);
    mkField "OrderBy" "string" [] (Some (VString "id"));
    mkField "OrderDir" "string" [] (Some (VString "")) ].

(** [ID] is the primary key, [Name] an ordinary column. *)
Definition two_column_record : list StructField :=
  [ mkField "ID" "int32" [("db", "id"); ("primary_key", "y")] (Some (VInt32 7));
    mkField "Name" "string" [("db", "name")] (Some (VString "ann")) ].

(** The primary key is the only field with a column name. *)
Definition key_only_record : list StructField :=
  [ mkField "ID" "int32" [("db", "id"); ("primary_key", "y")] (Some (VInt32 7));
    mkField "OrderBy" "string" [] (Some (VString "id")) ].


(** Two primary-key-tagged fields. *)
Definition two_key_record : list StructField :=
  [ mkField "OrderID" "int32" [("db", "order_id"); ("primary_key", "y")] (Some (VInt32 7));
    mkField "LineNo" "int32" [("db", "line_no"); ("primary_key", "y")] (Some (VInt32 2));
    mkField "Qty" "int32" [("db", "qty")] (Some (VInt32 5)) ].


(** A nullable-tagged field without a [db] tag, next to a key. *)
Definition nullable_untagged_record : list StructField :=
  [ mkField "ID" "int32" [("db", "id"); ("primary_key", "y")] (Some (VInt32 7));
    mkField "Note" "string" [("nullable", "y")] (Some (VString "")) ].


(** An [int64] column left at [0]. *)
Definition int64_zero_record : list StructField :=
  [ mkField "Count" "int64" [("db", "count")] (Some (VInt 0)) ].

(** The record of the scenario in the specification, every field at its
    zero value. *)
Definition scenario_record : list StructField :=
  [ mkField "ID" "int32" [("db", "id"); ("primary_key", "y")] (Some (VInt32 0));
    mkField "Name" "string" [("db", "name"); ("nullable", "y")] (Some (VString ""));
    mkField "IsActive" "int32" [("db", "is_active")] (Some (VInt32 0)) ].

(** A column-tagged field that is not exported. *)
Definition unexported_name : StructField :=
  {| Name := "name"; TypeName := "string"; Tag := [("db", "name")];
     CanInterface := false; Value := Some (VString "ann") |}.

(** A primary-key field that is not exported. *)
Definition unexported_id : StructField :=
  {| Name := "id"; TypeName := "int32"; Tag := [("db", "id"); ("primary_key", "y")];
     CanInterface := false; Value := Some (VInt32 7) |}.

(** ** Further notions for the properties below *)

(** The field passes the guard of the loop of BuildUpdateQuery and is not
    primary-key-tagged: it gets a SET term as soon as the mask has its
    identifier. *)
Definition updatable (f : StructField) : bool :=
  CanInterface f && negb (String.eqb (dbName_of f) "") && negb (isPrimaryKey_of f).



(** A record without a primary key. *)
Definition keyless_record : list StructField :=
  [ mkField "Name" "string" [("db", "name")] (Some (VString "ann"));
    mkField "Age" "int32" [("db", "age")] (Some (VInt32 0)) ].

(** The field has an item in the projection of BuildReadQuery. *)
Definition projected (f : StructField) : bool :=
  negb (String.eqb (nullable_of f) "") || negb (String.eqb (dbName_of f) "").

(** That item without the [, ] the loop writes after it. *)
Definition projection_expr (nullHandler : string) (f : StructField) : string :=
  if negb (String.eqb (nullable_of f) "") then
    nullHandler +:+ dbName_of f +:+ ", " +:+ default_literal (TypeName f) +:+ ") as "
    +:+ dbName_of f
  else dbName_of f.

(** A column name on which the clean-up of BuildReadQuery cannot go wrong:
    it has no comma and, where it is projected bare, does not begin with
    [FROM]. *)
Definition read_name_ok (f : StructField) : bool :=
  no_char "," (dbName_of f)
  && (negb (String.eqb (nullable_of f) "") || negb (HasPrefix (dbName_of f) "FROM")).

(** The text BuildReadQuery is meant to build before the predicate. *)
Definition select_from (exprs : list string) (target : string) : string :=
  match exprs with
  | [] => "SELECT FROM " +:+ target
  | _ :: _ => "SELECT " +:+ String.concat ", " exprs +:+ " FROM " +:+ target
  end.

(** A column whose name begins with [FROM], after another column. *)
Definition from_column_record : list StructField :=
  [ mkField "ID" "int32" [("db", "id"); ("primary_key", "y")] (Some (VInt32 0));
    mkField "FromDate" "string" [("db", "FROM_DATE")] (Some (VString ""));
    mkField "Name" "string" [("db", "name"); ("nullable", "y")] (Some (VString "")) ].

(** The guard of the loop of BuildUpdateQuery. *)
Definition update_guard (f : StructField) : bool :=
  CanInterface f && negb (String.eqb (dbName_of f) "").


(** ** Facts on strings and on [Replace] *)

Lemma append_cons (x : ascii) (a b : string) : String x a +:+ b = String x (a +:+ b).
Proof. reflexivity. Qed.

Lemma append_nil_l (b : string) : "" +:+ b = b.
Proof. reflexivity. Qed.

Lemma append_assoc (a b c : string) : (a +:+ b) +:+ c = a +:+ (b +:+ c).
Proof.
  induction a as [|x a IH]; [reflexivity |].
  rewrite !append_cons. f_equal. exact IH.
Qed.

Lemma append_nil_r (a : string) : a +:+ "" = a.
Proof.
  induction a as [|x a IH]; [reflexivity |].
  rewrite append_cons. f_equal. exact IH.
Qed.

Lemma no_char_app (c : ascii) (a b : string) :
  no_char c (a +:+ b) = no_char c a && no_char c b.
Proof.
  induction a as [|x a IH]; [reflexivity |].
  rewrite append_cons. cbn [no_char]. rewrite IH. now rewrite andb_assoc.
Qed.

Lemma HasPrefix_app (p s : string) : HasPrefix (p +:+ s) p = true.
Proof.
  induction p as [|x p IH]; [reflexivity |].
  rewrite append_cons. cbn [HasPrefix]. now rewrite Ascii.eqb_refl.
Qed.

Lemma HasPrefix_cons (c : ascii) (s p : string) :
  HasPrefix (String c s) (String c p) = HasPrefix s p.
Proof. cbn [HasPrefix]. now rewrite Ascii.eqb_refl. Qed.

Lemma HasPrefix_split (A p : string) :
  HasPrefix A p = true -> exists rest, A = p +:+ rest.
Proof.
  revert A. induction p as [|c p IH]; intros A H; [now exists A |].
  destruct A as [|a A]; [discriminate H |].
  cbn [HasPrefix] in H. apply andb_true_iff in H as [Hc Hp].
  apply Ascii.eqb_eq in Hc. subst a.
  destruct (IH A Hp) as [rest ->]. now exists rest.
Qed.

Lemma starts_with_HasPrefix (c : ascii) (p s : string) :
  starts_with c s = false -> HasPrefix s (String c p) = false.
Proof.
  destruct s as [|x s]; [reflexivity |].
  cbn [starts_with HasPrefix]. now intros ->.
Qed.

Lemma starts_with_app (c : ascii) (a b : string) :
  starts_with c (a +:+ b) = if String.eqb a "" then starts_with c b else starts_with c a.
Proof. destruct a; reflexivity. Qed.

Lemma no_char_starts_with (c : ascii) (s : string) :
  no_char c s = true -> starts_with c s = false.
Proof.
  destruct s as [|x s]; [reflexivity |].
  cbn [no_char starts_with]. intros H%andb_true_iff. now apply negb_true_iff.
Qed.

Lemma sql_name_parts (s : string) :
  sql_name s = true -> no_char "," s = true /\ no_char "(" s = true /\ no_char " " s = true.
Proof. unfold sql_name. rewrite !andb_true_iff. tauto. Qed.

Lemma replace_from_zero (old new : string) (s : string) :
  replace_from old new 0 0 s = s.
Proof. destruct s; reflexivity. Qed.

Lemma replace_from_skip (old new p s : string) (n : Z) :
  replace_from old new (String.length p) n (p +:+ s) = replace_from old new 0 n s.
Proof.
  induction p as [|x p IH]; [reflexivity |].
  rewrite append_cons. cbn [String.length replace_from]. exact IH.
Qed.

(** A prefix without the first byte of [old] is copied as it is. *)
Lemma replace_from_no_first (c0 : ascii) (old' new a s : string) (n : Z) :
  no_char c0 a = true ->
  replace_from (String c0 old') new 0 n (a +:+ s)
  = a +:+ replace_from (String c0 old') new 0 n s.
Proof.
  induction a as [|x a IH]; intros Ha; [reflexivity |].
  cbn [no_char] in Ha. apply andb_true_iff in Ha as [Hx Ha].
  rewrite !append_cons.
  cbn [replace_from HasPrefix].
  apply negb_true_iff in Hx. rewrite Hx. cbn [andb].
  destruct (n =? 0) eqn:Hn.
  - apply Z.eqb_eq in Hn. subst n. rewrite replace_from_zero. reflexivity.
  - rewrite (IH Ha). reflexivity.
Qed.

(** An occurrence of [old] at the head is replaced while [n] allows it. *)
Lemma replace_from_match (c0 : ascii) (old' new s : string) (n : Z) :
  n <> 0 ->
  replace_from (String c0 old') new 0 n (String c0 old' +:+ s)
  = new +:+ replace_from (String c0 old') new 0 (n - 1) s.
Proof.
  intros Hn. apply Z.eqb_neq in Hn.
  rewrite append_cons.
  cbn [replace_from HasPrefix String.length].
  rewrite Hn, Ascii.eqb_refl, HasPrefix_app. cbn [andb].
  rewrite Nat.sub_1_r. cbn [Nat.pred].
  now rewrite replace_from_skip.
Qed.

(** A head at which [old] does not start is copied. *)
Lemma replace_from_keep (old new : string) (c : ascii) (s : string) (n : Z) :
  HasPrefix (String c s) old = false ->
  replace_from old new 0 n (String c s) = String c (replace_from old new 0 n s).
Proof.
  intros Hp. cbn [replace_from]. rewrite Hp.
  destruct (n =? 0) eqn:Hn; [|reflexivity].
  apply Z.eqb_eq in Hn. subst n. now rewrite replace_from_zero.
Qed.

Lemma replace_from_neg (old new s : string) :
  forall k n m, n < 0 -> m < 0 ->
    replace_from old new k n s = replace_from old new k m s.
Proof.
  induction s as [|c s IH]; intros k n m Hn Hm; [reflexivity |].
  cbn [replace_from]. destruct k as [|k]; [| now apply IH].
  assert (Hn0 : (n =? 0) = false) by (apply Z.eqb_neq; lia).
  assert (Hm0 : (m =? 0) = false) by (apply Z.eqb_neq; lia).
  rewrite Hn0, Hm0.
  destruct (HasPrefix (String c s) old).
  - f_equal. apply IH; lia.
  - f_equal. now apply IH.
Qed.

Lemma Replace_no_first (c0 : ascii) (old' new s : string) (n : Z) :
  no_char c0 s = true -> Replace s (String c0 old') new n = s.
Proof.
  intros Hs. unfold Replace.
  rewrite <- (append_nil_r s) at 1.
  rewrite replace_from_no_first by exact Hs.
  cbn [replace_from]. apply append_nil_r.
Qed.

(** *** A one-shot replacement in front of a text it cannot reach *)

Lemma HasPrefix_app_no_straddle (W p : string) :
  no_straddle W p = true -> forall A, HasPrefix (A +:+ W) p = HasPrefix A p.
Proof.
  induction p as [|c p IH]; intros Hw A; [reflexivity |].
  cbn [no_straddle] in Hw. apply andb_true_iff in Hw as [Hhead Htail].
  apply negb_true_iff in Hhead.
  destruct A as [|a A]; [exact Hhead |].
  rewrite append_cons. cbn [HasPrefix]. now rewrite (IH Htail).
Qed.

Lemma contains_tail (a c0 : ascii) (A old' : string) :
  contains (String a A) (String c0 old') ->
  HasPrefix (String a A) (String c0 old') = false ->
  contains A (String c0 old').
Proof.
  intros (X & Y & HA) Hno. destruct X as [|x X].
  - rewrite append_nil_l in HA. rewrite HA, HasPrefix_app in Hno. discriminate Hno.
  - rewrite append_cons in HA. injection HA as _ HA. now exists X, Y.
Qed.

Lemma replace_first_app (c0 : ascii) (old' new W : string) :
  no_straddle W (String c0 old') = true ->
  forall A, contains A (String c0 old') \/ no_char c0 W = true ->
    replace_from (String c0 old') new 0 1 (A +:+ W)
    = replace_from (String c0 old') new 0 1 A +:+ W.
Proof.
  intros Hw. induction A as [|a A IH]; intros Hcase.
  - destruct Hcase as [(X & Y & HA) | HW].
    + destruct X; discriminate HA.
    + rewrite append_nil_l. rewrite <- (append_nil_r W) at 1.
      rewrite replace_from_no_first by exact HW.
      cbn [replace_from]. now rewrite append_nil_r.
  - destruct (HasPrefix (String a A) (String c0 old')) eqn:Hp.
    + destruct (HasPrefix_split _ _ Hp) as [rest ->].
      rewrite append_assoc, !replace_from_match by discriminate.
      change (1 - 1) with 0. rewrite !replace_from_zero. now rewrite append_assoc.
    + rewrite append_cons.
      rewrite !replace_from_keep.
      * rewrite append_cons. f_equal. apply IH.
        destruct Hcase as [Hc | HW]; [left | now right].
        now apply (contains_tail a).
      * exact Hp.
      * rewrite <- append_cons, (HasPrefix_app_no_straddle W _ Hw). exact Hp.
Qed.

(** *** Lists of names *)

Lemma join_cons (sep x : string) (xs : list string) :
  String.concat sep (x :: xs) = x +:+ concat_strings (map (fun c => sep +:+ c) xs).
Proof.
  revert x. induction xs as [|y ys IH]; intros x.
  - cbn. now rewrite append_nil_r.
  - change (String.concat sep (x :: y :: ys))
      with (x +:+ sep +:+ String.concat sep (y :: ys)).
    rewrite IH. cbn [map concat_strings fold_right].
    now rewrite !append_assoc.
Qed.

Lemma no_char_join (c : ascii) (cols : list string) :
  Forall (fun x => no_char c x = true) cols -> no_char c ", " = true ->
  no_char c (String.concat ", " cols) = true.
Proof.
  intros Hcols Hsep. destruct Hcols as [|x xs Hx Hxs]; [reflexivity |].
  rewrite join_cons, no_char_app, Hx. cbn [andb].
  induction Hxs as [|y ys Hy _ IH]; [reflexivity |].
  cbn [map concat_strings fold_right]. rewrite !no_char_app, Hsep, Hy.
  cbn [andb]. exact IH.
Qed.

Lemma starts_with_join (c : ascii) (cols : list string) (S : string) :
  Forall (fun x => x <> "" /\ starts_with c x = false) cols ->
  starts_with c S = false ->
  starts_with c (String.concat ", " cols +:+ S) = false.
Proof.
  intros Hcols HS. destruct Hcols as [|x xs [Hne Hx] _]; [exact HS |].
  rewrite join_cons, append_assoc, starts_with_app.
  apply String.eqb_neq in Hne. now rewrite Hne.
Qed.

Lemma filter_none {A : Type} (p : A -> bool) (l : list A) :
  Forall (fun x => p x = false) l -> List.filter p l = [].
Proof.
  induction 1 as [|x l Hx _ IH]; [reflexivity |].
  cbn [List.filter]. now rewrite Hx.
Qed.

Lemma filter_Forall {A : Type} (P : A -> Prop) (p : A -> bool) (l : list A) :
  Forall P l -> Forall P (List.filter p l).
Proof.
  induction 1 as [|x l Hx _ IH]; [constructor |].
  cbn [List.filter]. destruct (p x); [constructor |]; assumption.
Qed.

Lemma filter_Forall_true {A : Type} (p : A -> bool) (l : list A) :
  Forall (fun x => p x = true) (List.filter p l).
Proof.
  induction l as [|x l IH]; [constructor |].
  cbn [List.filter]. destruct (p x) eqn:Hx; [constructor |]; assumption.
Qed.

(** ** The scenario of the specification *)

Example scenario_create :
  BuildCreateQuery_result "t" scenario_record = Ok "INSERT INTO t () VALUES ()".
Proof. vm_compute. reflexivity. Qed.

Example scenario_read :
  BuildReadQuery_result "" "t" scenario_record
  = Ok "SELECT id, ifnull(name, '') as name, is_active FROM t WHERE true".
Proof. vm_compute. reflexivity. Qed.

Example scenario_delete :
  BuildDeleteQuery_result "t" scenario_record
  = "UPDATE t SET is_active = :is_active WHERE id = :id".
Proof. vm_compute. reflexivity. Qed.

(** ** [notDefault] *)

Lemma SFeqb_zero (x : spec_float) :
  SFeqb x (S754_zero false) = true <-> exists sign, x = S754_zero sign.
Proof.
  destruct x as [s| s | | s m e]; cbn; split; intros H.
  - now exists s.
  - reflexivity.
  - destruct s; discriminate H.
  - destruct H as [sign H]. discriminate H.
  - discriminate H.
  - destruct H as [sign H]. discriminate H.
  - destruct s; discriminate H.
  - destruct H as [sign H]. discriminate H.
Qed.

(** C8, the claim as stated fails: [int64] is an integer type and
    [float32] a floating-point type, and their zero is classified as not
    default, so that an [int64] column left at [0] is inserted by
    BuildCreateQuery and filtered on by BuildReadQuery; and a field of
    another type that holds the nil interface is classified as default. *)
Lemma zero_test_counterexample :
  name_in integer_type_names "int64" = true
  /\ notDefault "int64" (Some (VInt 0)) = Ok true
  /\ name_in float_type_names "float32" = true
  /\ notDefault "float32" (Some (VFloat (S754_zero false))) = Ok true
  /\ notDefault "error" None = Ok false
  /\ BuildCreateQuery_result "t" int64_zero_record
     = Ok "INSERT INTO t (count) VALUES (:count)"
  /\ BuildReadQuery_result "" "t" int64_zero_record
     = Ok "SELECT count FROM t WHERE true AND count = :count".
Proof. repeat split; vm_compute; reflexivity. Qed.

(** C8 (amended): the zero-value test classifies by type name: an [int32]
    value is zero exactly when it equals 0, a [float64] value exactly when
    it equals 0.0 (of either sign), a [string] value exactly when it is
    empty; a value of a type that is neither an integer type, nor a
    floating-point type, nor [string] is treated as non-default exactly
    when it is not the nil interface. *)
Theorem notDefault_zero_test :
  (forall n, exists b, notDefault "int32" (Some (VInt32 n)) = Ok b /\ (b = false <-> n = 0))
  /\ (forall x, exists b, notDefault "float64" (Some (VFloat64 x)) = Ok b
                         /\ (b = false <-> exists sign, x = S754_zero sign))
  /\ (forall s, exists b, notDefault "string" (Some (VString s)) = Ok b
                         /\ (b = false <-> s = ""))
  /\ (forall typeName fieldVal,
        name_in integer_type_names typeName = false ->
        name_in float_type_names typeName = false ->
        typeName <> "string" ->
        exists b, notDefault typeName fieldVal = Ok b /\ (b = true <-> fieldVal <> None)).
Proof.
  split; [intros n | split; [intros x | split; [intros s |]]].
  - exists (negb (n =? 0)). split; [reflexivity |].
    rewrite negb_false_iff. apply Z.eqb_eq.
  - exists (negb (SFeqb x (S754_zero false))). split; [reflexivity |].
    rewrite negb_false_iff. apply SFeqb_zero.
  - exists (negb (String.eqb s "")). split; [reflexivity |].
    rewrite negb_false_iff. apply String.eqb_eq.
  - intros typeName fieldVal Hint Hfloat Hstring.
    assert (H32 : String.eqb typeName "int32" = false).
    { apply String.eqb_neq. intros ->. discriminate Hint. }
    assert (H64 : String.eqb typeName "float64" = false).
    { apply String.eqb_neq. intros ->. discriminate Hfloat. }
    apply String.eqb_neq in Hstring.
    unfold notDefault. rewrite H32, H64, Hstring.
    eexists. split; [reflexivity |].
    destruct fieldVal; split; intros; congruence.
Qed.

Lemma notDefault_zero_test_witness :
  exists b, notDefault "bool" (Some (VBool false)) = Ok b
            /\ (b = true <-> Some (VBool false) <> None).
Proof.
  apply (proj2 (proj2 (proj2 notDefault_zero_test)) "bool" (Some (VBool false)));
    [reflexivity | reflexivity | discriminate].
Defined.

(** ** [BuildCreateQuery] *)

Lemma create_step (f : StructField) :
  create_ok f = true ->
  Interface f = Ok (Value f)
  /\ notDefault (TypeName f) (Value f) = Ok (nonzero f).
Proof.
  unfold create_ok, typed_value, Interface, nonzero.
  intros [Hread Htyped]%andb_true_iff. rewrite Hread.
  destruct (notDefault (TypeName f) (Value f)); [auto | discriminate Htyped].
Qed.

(** The loop after its first turn: every inserted column comes with the
    separator in front. *)
Lemma create_loop_tail (fs : list StructField) :
  Forall (fun f => create_ok f = true) fs ->
  forall i cols vals,
    create_loop (S i) fs cols vals
    = Ok (cols +:+ concat_strings (map (fun c => ", " +:+ c) (inserted_columns fs)),
          vals +:+ concat_strings (map (fun c => ", " +:+ c)
                                     (placeholders (inserted_columns fs)))).
Proof.
  unfold inserted_columns, placeholders.
  induction 1 as [|f fs Hf _ IH]; intros i cols vals.
  - cbn. now rewrite !append_nil_r.
  - cbn [create_loop List.filter].
    destruct (create_step f Hf) as [HI HN].
    rewrite HI. cbn [mbind outcome_bind]. rewrite HN. cbn [mbind outcome_bind].
    fold (insertable f). destruct (insertable f).
    + cbn [Nat.eqb map concat_strings fold_right]. rewrite IH.
      now rewrite !append_assoc.
    + apply IH.
Qed.

(** The two builders when the loop ends. *)
Lemma create_loop_spec (fs : list StructField) (cols vals : string) :
  Forall (fun f => create_ok f = true) fs ->
  create_loop 0 fs cols vals
  = Ok (cols +:+ create_lead fs +:+ String.concat ", " (inserted_columns fs),
        vals +:+ create_lead fs
        +:+ String.concat ", " (placeholders (inserted_columns fs))).
Proof.
  intros Hok. destruct Hok as [|f fs Hf Hfs].
  - cbn. now rewrite !append_nil_r.
  - cbn [create_loop create_lead].
    destruct (create_step f Hf) as [HI HN].
    rewrite HI. cbn [mbind outcome_bind]. rewrite HN. cbn [mbind outcome_bind].
    fold (insertable f). rewrite !(create_loop_tail fs Hfs).
    unfold inserted_columns, placeholders. cbn [List.filter].
    destruct (insertable f).
    + cbn [Nat.eqb map]. rewrite !join_cons. now rewrite !append_assoc.
    + fold (inserted_columns fs). fold (placeholders (inserted_columns fs)).
      destruct (inserted_columns fs) as [|c cs].
      * reflexivity.
      * cbn [placeholders map]. rewrite !join_cons.
        cbn [map concat_strings fold_right]. now rewrite !append_assoc.
Qed.

(** The text before and after the clean-up, for every record that the loop
    can read. *)
Lemma BuildCreateQuery_result_spec (target : string) (fs : list StructField) :
  Forall (fun f => create_ok f = true) fs ->
  BuildCreateQuery_result target fs
  = Ok (ReplaceAll
          ("INSERT INTO " +:+ target +:+ " (" +:+ create_lead fs
           +:+ String.concat ", " (inserted_columns fs) +:+ ") VALUES (" +:+ create_lead fs
           +:+ String.concat ", " (placeholders (inserted_columns fs)) +:+ ")")
          "(, " "(").
Proof.
  intros Hok. unfold BuildCreateQuery_result.
  rewrite (create_loop_spec fs _ _ Hok). cbn [mbind outcome_bind].
  do 2 f_equal. now rewrite !append_assoc.
Qed.



(** A record with a field that [reflect] may not read makes
    BuildCreateQuery panic: its loop calls [Interface] on every field. *)
Lemma create_loop_unreadable (pre post : list StructField) (f : StructField) :
  CanInterface f = false ->
  forall i cols vals, is_Ok (create_loop i (pre ++ f :: post) cols vals) = false.
Proof.
  intros Hf. induction pre as [|g pre IH]; intros i cols vals; cbn [app create_loop].
  - unfold Interface. rewrite Hf. reflexivity.
  - destruct (Interface g) as [v|]; [| reflexivity]. cbn [mbind outcome_bind].
    destruct (notDefault (TypeName g) v) as [nd|]; [| reflexivity].
    cbn [mbind outcome_bind].
    destruct (nd && _ && _); apply IH.
Qed.

(** *** The clean-up of BuildCreateQuery *)

(** One parenthesised list: the separator that the loop may have left
    after the parenthesis goes away, the list stays. *)
Lemma replace_group (n : Z) (lead J S : string) :
  n < 0 -> no_char "(" J = true ->
  lead = ", " \/ lead = "" -> starts_with "," (J +:+ S) = false ->
  replace_from "(, " "(" 0 n ("(" +:+ lead +:+ J +:+ S)
  = "(" +:+ J +:+ replace_from "(, " "(" 0 n S.
Proof.
  intros Hn HJ [-> | ->] Hstart.
  - change ("(" +:+ ", " +:+ J +:+ S) with ("(, " +:+ J +:+ S).
    rewrite replace_from_match by lia.
    rewrite (replace_from_neg _ _ _ 0 (n - 1) n) by lia.
    now rewrite replace_from_no_first.
  - change ("(" +:+ "" +:+ J +:+ S) with (String "(" (J +:+ S)).
    rewrite replace_from_keep.
    + now rewrite replace_from_no_first.
    + rewrite HasPrefix_cons. now apply starts_with_HasPrefix.
Qed.

Lemma create_lead_cases (fs : list StructField) :
  create_lead fs = ", " \/ create_lead fs = "".
Proof.
  destruct fs as [|f fs]; [now right |]. cbn [create_lead].
  destruct (insertable f); [now right |].
  destruct (inserted_columns (f :: fs)); [now right | now left].
Qed.

Lemma insertable_iff (f : StructField) :
  insertable f = true
  <-> dbName_of f <> "" /\ Tag_Get (Tag f) "primary_key" = ""
      /\ notDefault (TypeName f) (Value f) = Ok true.
Proof.
  unfold insertable, nonzero, isPrimaryKey_of.
  rewrite !andb_true_iff, !negb_true_iff, negb_false_iff, String.eqb_neq, String.eqb_eq.
  destruct (notDefault (TypeName f) (Value f)) as [[|]|]; intuition congruence.
Qed.

Lemma inserted_columns_named (fs : list StructField) :
  Forall (fun c => c <> "") (inserted_columns fs).
Proof.
  unfold inserted_columns. apply Forall_map.
  eapply Forall_impl; [apply filter_Forall_true |].
  intros f Hf%insertable_iff. cbn. tauto.
Qed.

(** For a table and columns with plain names the clean-up gives the two
    lists, each with its items separated by [, ]. *)
Lemma ReplaceAll_create (target lead : string) (cols : list string) :
  no_char "(" target = true ->
  Forall (fun c => sql_name c = true) cols -> Forall (fun c => c <> "") cols ->
  lead = ", " \/ lead = "" ->
  ReplaceAll
    ("INSERT INTO " +:+ target +:+ " (" +:+ lead +:+ String.concat ", " cols
     +:+ ") VALUES (" +:+ lead +:+ String.concat ", " (placeholders cols) +:+ ")")
    "(, " "("
  = "INSERT INTO " +:+ target +:+ " (" +:+ String.concat ", " cols
    +:+ ") VALUES (" +:+ String.concat ", " (placeholders cols) +:+ ")".
Proof.
  intros Ht Hcols Hne Hlead. unfold ReplaceAll, Replace.
  set (J := String.concat ", " cols).
  set (JV := String.concat ", " (placeholders cols)).
  assert (HJ : no_char "(" J = true).
  { apply no_char_join; [| reflexivity].
    eapply Forall_impl; [exact Hcols |]. intros c Hc. now apply sql_name_parts in Hc. }
  assert (HJV : no_char "(" JV = true).
  { apply no_char_join; [| reflexivity]. unfold placeholders. apply Forall_map.
    eapply Forall_impl; [exact Hcols |]. intros c Hc. cbn.
    apply sql_name_parts in Hc as (_ & Hc & _). rewrite no_char_app, Hc. reflexivity. }
  assert (HsJ : forall S, starts_with "," S = false -> starts_with "," (J +:+ S) = false).
  { intros S HS. apply starts_with_join; [| exact HS].
    apply Forall_and; split; [exact Hne |].
    eapply Forall_impl; [exact Hcols |]. intros c Hc.
    apply no_char_starts_with. now apply sql_name_parts in Hc. }
  assert (HsJV : starts_with "," (JV +:+ ")") = false).
  { apply starts_with_join; [| reflexivity]. unfold placeholders. apply Forall_map.
    apply Forall_forall. intros c _. cbn. split; [discriminate | reflexivity]. }
  assert (HP : no_char "(" ("INSERT INTO " +:+ target +:+ " ") = true).
  { rewrite !no_char_app, Ht. reflexivity. }
  change ("INSERT INTO " +:+ target +:+ " (" +:+ lead +:+ J +:+ ") VALUES (" +:+ lead
          +:+ JV +:+ ")")
    with ("INSERT INTO " +:+ target +:+ " " +:+ "(" +:+ lead +:+ J +:+ ") VALUES "
          +:+ "(" +:+ lead +:+ JV +:+ ")").
  rewrite <- (append_assoc target), <- (append_assoc "INSERT INTO ").
  set (P := "INSERT INTO " +:+ target +:+ " ") in *.
  rewrite (replace_from_no_first _ _ _ P) by exact HP.
  rewrite replace_group; [| lia | exact HJ | exact Hlead | apply HsJ; reflexivity].
  rewrite (replace_from_no_first _ _ _ ") VALUES ") by reflexivity.
  rewrite replace_group; [| lia | exact HJV | exact Hlead | exact HsJV].
  subst P. rewrite !append_assoc. reflexivity.
Qed.

Example create_TestStruct :
  BuildCreateQuery_result "test_table" TestStruct
  = Ok "INSERT INTO test_table (date, geolocation_lat, geolocation_lng) VALUES (:date, :geolocation_lat, :geolocation_lng)".
Proof. vm_compute. reflexivity. Qed.

Example create_unexported_panics :
  is_Ok (BuildCreateQuery_result "t" [unexported_name]) = false.
Proof. reflexivity. Qed.

(** BuildCreateQuery panics on every record that has a field [reflect] may
    not read, tagged or not: unlike the loops of BuildReadQuery and
    BuildUpdateQuery, its loop calls [Interface] without asking
    [CanInterface] first.  No query and no error value is returned. *)
Theorem create_panics_on_unreadable_field
    (Named : string -> list StructField -> NamedResult)
    (target : string) (pre post : list StructField) (f : StructField) :
  CanInterface f = false ->
  exists msg, BuildCreateQuery Named target (pre ++ f :: post) = Panic msg.
Proof.
  intros Hf. unfold BuildCreateQuery, BuildCreateQuery_result.
  pose proof (create_loop_unreadable pre post f Hf 0%nat
                ("INSERT INTO " +:+ target +:+ " (") "(") as Hloop.
  destruct (create_loop _ _ _ _) as [r|msg]; [discriminate Hloop |].
  exists msg. reflexivity.
Qed.

Lemma create_panics_on_unreadable_field_witness :
  exists msg,
    BuildCreateQuery (fun q _ => (q, [], None)) "t" (two_column_record ++ [unexported_name])
    = Panic msg.
Proof.
  apply (create_panics_on_unreadable_field (fun q _ => (q, [], None)) "t"
           two_column_record [] unexported_name).
  reflexivity.
Defined.



(** ** [BuildDeleteQuery] *)

Lemma delete_loop_spec (fs : list StructField) (builder : string) :
  delete_loop fs builder = builder +:+ pk_clause fs.
Proof.
  unfold pk_clause. induction fs as [|f fs IH]; cbn [delete_loop List.find].
  - now rewrite append_nil_r.
  - destruct (isPrimaryKey_of f); [reflexivity | exact IH].
Qed.

(** BuildDeleteQuery stops at the first primary-key-tagged field: the
    fields after it do not matter. *)
Lemma delete_first_primary_key (pre post : list StructField) (pk : StructField) :
  Forall (fun f => isPrimaryKey_of f = false) pre -> isPrimaryKey_of pk = true ->
  pk_clause (pre ++ pk :: post) = dbName_of pk +:+ " = :" +:+ dbName_of pk.
Proof.
  intros Hpre Hpk. unfold pk_clause.
  induction Hpre as [|f pre Hf _ IH]; cbn [app List.find].
  - now rewrite Hpk.
  - rewrite Hf. exact IH.
Qed.

(** Whatever the fields after it are, the statement of BuildDeleteQuery
    ends with the clause of the first primary-key-tagged field, and that is
    its only identity predicate. *)
Theorem delete_uses_first_primary_key (target : string) (pre post : list StructField)
    (pk : StructField) :
  Forall (fun f => isPrimaryKey_of f = false) pre -> isPrimaryKey_of pk = true ->
  BuildDeleteQuery_result target (pre ++ pk :: post)
  = match FieldByName (pre ++ pk :: post) "IsActive" with
    | Some isActive =>
      "UPDATE " +:+ target +:+ " SET " +:+ dbName_of isActive +:+ " = :"
      +:+ dbName_of isActive +:+ " WHERE "
    | None => "DELETE FROM " +:+ target +:+ " WHERE "
    end +:+ dbName_of pk +:+ " = :" +:+ dbName_of pk.
Proof.
  intros Hpre Hpk. unfold BuildDeleteQuery_result.
  rewrite delete_loop_spec. now rewrite (delete_first_primary_key pre post pk).
Qed.

Lemma delete_uses_first_primary_key_witness :
  BuildDeleteQuery_result "t" two_key_record
  = "DELETE FROM " +:+ "t" +:+ " WHERE " +:+ "order_id" +:+ " = :" +:+ "order_id".
Proof.
  apply (delete_uses_first_primary_key "t" []
           [ mkField "LineNo" "int32" [("db", "line_no"); ("primary_key", "y")]
               (Some (VInt32 2));
             mkField "Qty" "int32" [("db", "qty")] (Some (VInt32 5)) ]
           (mkField "OrderID" "int32" [("db", "order_id"); ("primary_key", "y")]
              (Some (VInt32 7)))).
  - constructor.
  - reflexivity.
Defined.

Example delete_two_keys :
  BuildDeleteQuery_result "t" two_key_record = "DELETE FROM t WHERE order_id = :order_id".
Proof. vm_compute. reflexivity. Qed.

Example delete_TestStruct :
  BuildDeleteQuery_result "test_table" TestStruct
  = "UPDATE test_table SET is_active = :is_active WHERE id = :id".
Proof. vm_compute. reflexivity. Qed.






(** ** [BuildReadQuery] *)

Lemma read_loop_spec (nullHandler : string) (fs : list StructField) :
  Forall (fun f => read_ok f = true) fs ->
  forall fields predicate,
    read_loop nullHandler fs fields predicate
    = Ok (fields +:+ projection nullHandler fs, predicate +:+ filters fs).
Proof.
  unfold projection, filters.
  induction 1 as [|f fs Hf _ IH]; intros fields predicate.
  - cbn. now rewrite !append_nil_r.
  - cbn [read_loop map List.filter concat_strings fold_right].
    fold (concat_strings (map (projection_item nullHandler) fs)).
    unfold read_ok, typed_value in Hf. apply andb_true_iff in Hf as [Hnull Hval].
    unfold projection_item, has_filter, nonzero, default_literal, Interface.
    assert (Hfields :
      (if negb (String.eqb (nullable_of f) "")
       then d ← getDefault (TypeName f);
            Ok (fields +:+ nullHandler +:+ dbName_of f +:+ ", " +:+ d +:+ ") as "
                +:+ dbName_of f +:+ ", ")
       else if negb (String.eqb (dbName_of f) "")
            then Ok (fields +:+ dbName_of f +:+ ", ") else Ok fields)
      = Ok (fields +:+
            (if negb (String.eqb (nullable_of f) "")
             then nullHandler +:+ dbName_of f +:+ ", "
                  +:+ match getDefault (TypeName f) with Ok d => d | Panic _ => "" end
                  +:+ ") as " +:+ dbName_of f +:+ ", "
             else if negb (String.eqb (dbName_of f) "") then dbName_of f +:+ ", " else ""))).
    { destruct (String.eqb (nullable_of f) ""); cbn [negb orb] in *.
      - destruct (String.eqb (dbName_of f) ""); cbn [negb];
          [now rewrite append_nil_r | reflexivity].
      - destruct (getDefault (TypeName f)); [| discriminate Hnull].
        reflexivity. }
    rewrite Hfields. cbn [mbind outcome_bind].
    destruct (CanInterface f); cbn [negb orb andb mbind outcome_bind] in *.
    + destruct (notDefault (TypeName f) (Value f)) as [nd|]; [| discriminate Hval].
      cbn [mbind outcome_bind].
      destruct (nd && negb (String.eqb (dbName_of f) "")) eqn:Hcond.
      * cbn [map concat_strings fold_right].
        fold (concat_strings (map filter_item (List.filter has_filter fs))).
        rewrite IH. unfold filter_item at 2.
        destruct (String.eqb (TypeName f) "string"); now rewrite !append_assoc.
      * rewrite IH. now rewrite !append_assoc.
    + rewrite IH. now rewrite !append_assoc.
Qed.

Lemma BuildReadQuery_result_spec (sqlDriver target : string) (fs : list StructField) :
  Forall (fun f => read_ok f = true) fs ->
  BuildReadQuery_result sqlDriver target fs
  = Ok (Replace ("SELECT " +:+ projection (nullHandler_of sqlDriver) fs +:+ "FROM " +:+ target
                 +:+ " WHERE true" +:+ filters fs) ", FROM" " FROM" 1).
Proof.
  intros Hok. unfold BuildReadQuery_result.
  rewrite (read_loop_spec _ fs Hok). cbn [mbind outcome_bind].
  now rewrite append_nil_l.
Qed.




Example read_TestStruct :
  BuildReadQuery_result "" "test_table" TestStruct
  = Ok "SELECT id, ifnull(name, '') as name, ifnull(date, '') as date, ifnull(geolocation_lat, 0.0) as geolocation_lat, ifnull(geolocation_lng, 0.0) as geolocation_lng, is_active, property_id FROM test_table WHERE true AND id = :id AND date LIKE :date AND geolocation_lat = :geolocation_lat AND geolocation_lng = :geolocation_lng".
Proof. vm_compute. reflexivity. Qed.

Example read_TestStruct_pgsql :
  BuildReadQuery_result "pgsql" "t" two_column_record
  = Ok "SELECT id, name FROM t WHERE true AND id = :id AND name LIKE :name"
  /\ nullHandler_of "pgsql" = "coalesce(" /\ nullHandler_of "mysql" = "ifnull(".
Proof. repeat split; vm_compute; reflexivity. Qed.

(** The null-coalescing function is [coalesce(] when the driver variable is
    [pgsql] and [ifnull(] for every other value, the unset variable
    included. *)
Theorem nullHandler_dialects (sqlDriver : string) :
  nullHandler_of "pgsql" = "coalesce("
  /\ nullHandler_of "" = "ifnull("
  /\ (sqlDriver <> "pgsql" -> nullHandler_of sqlDriver = "ifnull(").
Proof.
  repeat split. intros Hd%String.eqb_neq. unfold nullHandler_of. now rewrite Hd.
Qed.

Lemma nullHandler_dialects_witness : nullHandler_of "mysql" = "ifnull(".
Proof. apply (nullHandler_dialects "mysql"). discriminate. Defined.

(** C4, the code at a record with a nullable-tagged field that has no [db]
    tag: the field is not left out of the projection, it is written as a
    null-coalescing expression around an empty column name. *)
Theorem read_projects_nullable_without_column :
  dbName_of (mkField "Note" "string" [("nullable", "y")] (Some (VString ""))) = ""
  /\ BuildReadQuery_result "" "t" nullable_untagged_record
     = Ok "SELECT id, ifnull(, '') as  FROM t WHERE true AND id = :id".
Proof. split; vm_compute; reflexivity. Qed.

(** What the projection holds for each field, in declaration order: the
    null-coalescing expression for a nullable-tagged field (whatever its
    column name), the bare column name for another field with a column
    name, and nothing otherwise. *)
Lemma read_projection (sqlDriver target : string) (fs : list StructField) :
  Forall (fun f => read_ok f = true) fs ->
  BuildReadQuery_result sqlDriver target fs
  = Ok (Replace ("SELECT "
                 +:+ concat_strings (map (projection_item (nullHandler_of sqlDriver)) fs)
                 +:+ "FROM " +:+ target +:+ " WHERE true" +:+ filters fs) ", FROM" " FROM" 1)
  /\ (forall nh f, nullable_of f <> "" ->
       projection_item nh f = nh +:+ dbName_of f +:+ ", " +:+ default_literal (TypeName f)
                              +:+ ") as " +:+ dbName_of f +:+ ", ")
  /\ (forall nh f, nullable_of f = "" -> dbName_of f <> "" ->
       projection_item nh f = dbName_of f +:+ ", ")
  /\ (forall nh f, nullable_of f = "" -> dbName_of f = "" -> projection_item nh f = "").
Proof.
  intros Hok. split; [now apply BuildReadQuery_result_spec |].
  unfold projection_item. repeat split; intros nh f.
  - intros Hn%String.eqb_neq. now rewrite Hn.
  - intros Hn%String.eqb_eq Hc%String.eqb_neq. now rewrite Hn, Hc.
  - intros Hn%String.eqb_eq Hc%String.eqb_eq. now rewrite Hn, Hc.
Qed.

Lemma read_projection_witness :
  BuildReadQuery_result "pgsql" "t"
    [ mkField "ID" "int32" [("db", "id"); ("primary_key", "y")] (Some (VInt32 0));
      mkField "Name" "string" [("db", "name"); ("nullable", "y")] (Some (VString ""));
      mkField "OrderBy" "string" [] (Some (VString "")) ]
  = Ok (Replace ("SELECT " +:+ "id, coalesce(name, '') as name, " +:+ "FROM " +:+ "t"
                 +:+ " WHERE true" +:+ "") ", FROM" " FROM" 1).
Proof.
  apply (read_projection "pgsql" "t").
  repeat constructor.
Defined.

(** *** The predicate is out of reach of the clean-up of BuildReadQuery *)

Lemma projection_item_end (nullHandler : string) (f : StructField) :
  (exists p, projection_item nullHandler f = p +:+ ", ")
  \/ (projection_item nullHandler f = "" /\ has_filter f = false).
Proof.
  unfold projection_item, has_filter.
  destruct (String.eqb (nullable_of f) ""); cbn [negb].
  - destruct (String.eqb (dbName_of f) ""); cbn [negb].
    + right. split; [reflexivity | apply andb_false_r].
    + left. now exists (dbName_of f).
  - left. eexists. rewrite <- !append_assoc. reflexivity.
Qed.

Lemma projection_end (nullHandler : string) (fs : list StructField) :
  (exists p, projection nullHandler fs = p +:+ ", ")
  \/ (projection nullHandler fs = "" /\ filters fs = "").
Proof.
  unfold projection, filters. induction fs as [|f fs IH]; [now right |].
  cbn [map concat_strings fold_right List.filter].
  fold (concat_strings (map (projection_item nullHandler) fs)).
  destruct IH as [[p Hp] | [Hproj Hfil]].
  - left. rewrite Hp. exists (projection_item nullHandler f +:+ p).
    now rewrite append_assoc.
  - rewrite Hproj, append_nil_r.
    destruct (projection_item_end nullHandler f) as [[p Hp] | [Hitem Hno]].
    + left. now exists p.
    + right. now rewrite Hitem, Hno.
Qed.

(** The text of BuildReadQuery ends with the predicate as the loop built
    it: the one-shot replacement of [, FROM] happens before it. *)
Lemma BuildReadQuery_result_predicate (sqlDriver target : string) (fs : list StructField) :
  Forall (fun f => read_ok f = true) fs ->
  BuildReadQuery_result sqlDriver target fs
  = Ok (Replace ("SELECT " +:+ projection (nullHandler_of sqlDriver) fs +:+ "FROM " +:+ target)
          ", FROM" " FROM" 1
        +:+ " WHERE true" +:+ filters fs).
Proof.
  intros Hok. rewrite (BuildReadQuery_result_spec _ _ _ Hok). f_equal. unfold Replace.
  set (proj := projection (nullHandler_of sqlDriver) fs).
  rewrite <- (replace_first_app "," " FROM" " FROM" (" WHERE true" +:+ filters fs)).
  - now rewrite !append_assoc.
  - reflexivity.
  - destruct (projection_end (nullHandler_of sqlDriver) fs) as [[p Hp] | [_ Hfil]].
    + left. exists ("SELECT " +:+ p), (" " +:+ target). fold proj in Hp. rewrite Hp.
      rewrite !append_assoc. reflexivity.
    + right. rewrite Hfil. reflexivity.
Qed.





(** ** [getDefault] *)






(** ** [BuildUpdateQuery] *)

Lemma update_loop_spec (fieldMask : gmap string Z) (fs : list StructField) :
  forall builder predicate,
    update_loop fieldMask fs builder predicate
    = (builder +:+ set_clauses fieldMask fs, predicate +:+ where_clauses fs).
Proof.
  unfold set_clauses, where_clauses.
  induction fs as [|f fs IH]; intros builder predicate.
  - cbn. now rewrite !append_nil_r.
  - cbn [update_loop List.filter].
    unfold is_set_field, is_where_field.
    destruct (CanInterface f && negb (String.eqb (dbName_of f) "")) eqn:Hguard;
      cbn [andb]; [| apply IH].
    destruct (isPrimaryKey_of f) eqn:Hpk; cbn [andb negb map concat_strings fold_right].
    + rewrite IH. unfold where_clause at 2.
      now rewrite !append_assoc.
    + destruct (mask_has fieldMask (Name f)) eqn:Hm;
        cbn [map concat_strings fold_right]; [| apply IH].
      rewrite IH. unfold set_clause at 2. now rewrite !append_assoc.
Qed.

(** The text handed to the resolver, for every record and mask. *)
Lemma BuildUpdateQuery_result_spec (target : string) (fs : list StructField)
    (fieldMask : gmap string Z) :
  BuildUpdateQuery_result target fs fieldMask
  = Replace ("UPDATE " +:+ target +:+ " SET " +:+ set_clauses fieldMask fs
             +:+ where_clauses fs) ", WHERE" " WHERE" 1.
Proof.
  unfold BuildUpdateQuery_result. rewrite update_loop_spec.
  rewrite append_nil_l. now rewrite !append_assoc.
Qed.

Lemma is_set_field_iff (fieldMask : gmap string Z) (f : StructField) :
  is_set_field fieldMask f = true
  <-> CanInterface f = true /\ is_Some (fieldMask !! Name f)
      /\ dbName_of f <> "" /\ Tag_Get (Tag f) "primary_key" = "".
Proof.
  unfold is_set_field, isPrimaryKey_of, mask_has.
  rewrite !andb_true_iff, !negb_true_iff, negb_false_iff, String.eqb_neq, String.eqb_eq.
  destruct (fieldMask !! Name f) as [v|] eqn:Hm; split.
  - intros [[[? ?] ?] _]. eauto.
  - intros (? & _ & ? & ?). eauto.
  - intros [_ ?]. discriminate.
  - intros (_ & [v Hv] & _). discriminate.
Qed.

Lemma same_declaration_set_field (fieldMask : gmap string Z) (f g : StructField) :
  same_declaration f g ->
  is_set_field fieldMask f = is_set_field fieldMask g /\ set_clause f = set_clause g
  /\ is_where_field f = is_where_field g /\ where_clause f = where_clause g.
Proof.
  intros (Hn & _ & Ht & Hc).
  unfold is_set_field, is_where_field, set_clause, where_clause, isPrimaryKey_of, dbName_of.
  now rewrite Hn, Ht, Hc.
Qed.

Lemma same_declaration_clauses (fieldMask : gmap string Z) (fs gs : list StructField) :
  Forall2 same_declaration fs gs ->
  set_clauses fieldMask fs = set_clauses fieldMask gs /\ where_clauses fs = where_clauses gs.
Proof.
  unfold set_clauses, where_clauses.
  induction 1 as [|f g fs gs Hfg _ [IHs IHw]]; [split; reflexivity |].
  destruct (same_declaration_set_field fieldMask f g Hfg) as (Hs & Hsc & Hw & Hwc).
  cbn [List.filter]. rewrite <- Hs, <- Hw. split.
  - destruct (is_set_field fieldMask f); cbn [map concat_strings fold_right];
      [fold (concat_strings (map set_clause (List.filter (is_set_field fieldMask) fs)));
       fold (concat_strings (map set_clause (List.filter (is_set_field fieldMask) gs)));
       now rewrite Hsc, IHs | exact IHs].
  - destruct (is_where_field f); cbn [map concat_strings fold_right];
      [fold (concat_strings (map where_clause (List.filter is_where_field fs)));
       fold (concat_strings (map where_clause (List.filter is_where_field gs)));
       now rewrite Hwc, IHw | exact IHw].
Qed.

(** *** The text of BuildUpdateQuery for plain names *)

Lemma set_clause_split (f : StructField) :
  set_clause f = (dbName_of f +:+ " = :" +:+ dbName_of f) +:+ ",".
Proof. unfold set_clause. now rewrite !append_assoc. Qed.

Lemma set_clause_starts (f : StructField) (R : string) :
  sql_name (dbName_of f) = true -> dbName_of f <> "" ->
  starts_with " " (set_clause f +:+ R) = false.
Proof.
  intros Hname Hne. unfold set_clause.
  rewrite append_assoc, starts_with_app.
  apply String.eqb_neq in Hne. rewrite Hne.
  apply no_char_starts_with. now apply sql_name_parts.
Qed.

(** The clean-up of BuildUpdateQuery walks over the SET terms without
    finding its pattern. *)
Lemma replace_set_terms (new : string) (n : Z) (l : list StructField) (R : string) :
  Forall (fun f => sql_name (dbName_of f) = true /\ dbName_of f <> "") l ->
  starts_with " " R = false ->
  replace_from ", WHERE" new 0 n (concat_strings (map set_clause l) +:+ R)
  = concat_strings (map set_clause l) +:+ replace_from ", WHERE" new 0 n R.
Proof.
  intros Hl HR. induction Hl as [|f l [Hname Hne] Hl IH]; [reflexivity |].
  cbn [map concat_strings fold_right].
  fold (concat_strings (map set_clause l)).
  rewrite set_clause_split.
  assert (HA : no_char "," (dbName_of f +:+ " = :" +:+ dbName_of f) = true).
  { apply sql_name_parts in Hname as (Hc & _ & _).
    rewrite !no_char_app, Hc. reflexivity. }
  set (A := dbName_of f +:+ " = :" +:+ dbName_of f) in *.
  rewrite !append_assoc.
  rewrite (replace_from_no_first _ _ _ A) by exact HA.
  rewrite append_cons, append_nil_l.
  rewrite replace_from_keep.
  - rewrite IH. reflexivity.
  - rewrite HasPrefix_cons. apply starts_with_HasPrefix.
    destruct Hl as [|g l' [Hg Hgne] Hl']; [exact HR |].
    cbn [map concat_strings fold_right]. rewrite append_assoc.
    now apply set_clause_starts.
Qed.

Lemma where_clauses_no_comma (l : list StructField) :
  Forall (fun f => sql_name (dbName_of f) = true /\ dbName_of f <> "") l ->
  no_char "," (concat_strings (map where_clause l)) = true.
Proof.
  induction 1 as [|f l [Hname _] _ IH]; [reflexivity |].
  cbn [map concat_strings fold_right]. unfold where_clause at 1.
  apply sql_name_parts in Hname as (Hc & _ & _).
  rewrite !no_char_app, Hc. exact IH.
Qed.

Lemma where_clauses_starts (l : list StructField) :
  starts_with " " (concat_strings (map where_clause l)) = false.
Proof. destruct l; reflexivity. Qed.

Lemma update_names_filter (p : StructField -> bool) (fs : list StructField) :
  update_names_ok fs ->
  (forall f, p f = true -> dbName_of f <> "") ->
  Forall (fun f => sql_name (dbName_of f) = true /\ dbName_of f <> "") (List.filter p fs).
Proof.
  intros Hok Hp. induction Hok as [|f fs Hf _ IH]; [constructor |].
  cbn [List.filter]. destruct (p f) eqn:Hpf; [| exact IH].
  constructor; [| exact IH]. specialize (Hp f Hpf). auto.
Qed.

Lemma is_set_field_col (fieldMask : gmap string Z) (f : StructField) :
  is_set_field fieldMask f = true -> dbName_of f <> "".
Proof. intros H%is_set_field_iff. tauto. Qed.

Lemma is_where_field_col (f : StructField) :
  is_where_field f = true -> dbName_of f <> "".
Proof.
  unfold is_where_field. rewrite !andb_true_iff, negb_true_iff, String.eqb_neq. tauto.
Qed.

(** With such names the clean-up finds nothing to replace: the text is the
    concatenation of the SET terms, each ending in its comma, and of the
    WHERE clauses. *)
Lemma BuildUpdateQuery_result_exact (target : string) (fs : list StructField)
    (fieldMask : gmap string Z) :
  no_char "," target = true -> update_names_ok fs ->
  BuildUpdateQuery_result target fs fieldMask
  = "UPDATE " +:+ target +:+ " SET " +:+ set_clauses fieldMask fs +:+ where_clauses fs.
Proof.
  intros Ht Hok. rewrite BuildUpdateQuery_result_spec. unfold Replace.
  assert (HP : no_char "," ("UPDATE " +:+ target +:+ " SET ") = true).
  { rewrite !no_char_app, Ht. reflexivity. }
  rewrite <- (append_assoc target), <- (append_assoc "UPDATE ").
  set (P := "UPDATE " +:+ target +:+ " SET ") in *.
  rewrite (replace_from_no_first _ _ _ P) by exact HP.
  f_equal. unfold set_clauses.
  rewrite replace_set_terms.
  - f_equal. unfold where_clauses.
    rewrite <- (append_nil_r (concat_strings _)) at 1.
    rewrite replace_from_no_first; [apply append_nil_r |].
    apply where_clauses_no_comma.
    apply update_names_filter; [exact Hok | apply is_where_field_col].
  - apply update_names_filter; [exact Hok | apply is_set_field_col].
  - apply where_clauses_starts.
Qed.

(** *** Mask-gated SET terms *)

(** C7, the claim as stated fails: the field [name] is a key of the mask,
    has the column name [name] and is not primary-key-tagged, yet the
    statement has no SET term for it, because the field is not exported
    and the loop skips every field that [CanInterface] rejects. *)
Lemma update_mask_gate_counterexample :
  mask_has {[ "name" := 0 ]} (Name unexported_name) = true
  /\ dbName_of unexported_name = "name"
  /\ isPrimaryKey_of unexported_name = false
  /\ BuildUpdateQuery_result "t" [unexported_name] {[ "name" := 0 ]} = "UPDATE t SET ".
Proof. repeat split; vm_compute; reflexivity. Qed.

(** C7 (amended): for every mask and record, the SET terms of the text
    that BuildUpdateQuery hands to the resolver are, in declaration order,
    the terms [<col> = :<col>,] of exactly the fields that are readable by
    reflection (exported), whose identifier is a key of the mask, that have
    a non-empty column name and are not primary-key-tagged; two records
    that differ only in the current values of their fields give the same
    text.  The text is the one-shot clean-up of
    [UPDATE <table> SET <terms><where-clauses>], and it is that very text
    when table and columns have plain names. *)
Theorem update_set_terms_mask_gated (target : string) (fs : list StructField)
    (fieldMask : gmap string Z) :
  BuildUpdateQuery_result target fs fieldMask
  = Replace ("UPDATE " +:+ target +:+ " SET "
             +:+ concat_strings (map set_clause (List.filter (is_set_field fieldMask) fs))
             +:+ where_clauses fs) ", WHERE" " WHERE" 1
  /\ (forall f, is_set_field fieldMask f = true
       <-> CanInterface f = true /\ is_Some (fieldMask !! Name f)
           /\ dbName_of f <> "" /\ Tag_Get (Tag f) "primary_key" = "")
  /\ (forall fs', Forall2 same_declaration fs fs' ->
       BuildUpdateQuery_result target fs' fieldMask
       = BuildUpdateQuery_result target fs fieldMask)
  /\ (no_char "," target = true -> update_names_ok fs ->
      BuildUpdateQuery_result target fs fieldMask
      = "UPDATE " +:+ target +:+ " SET "
        +:+ concat_strings (map set_clause (List.filter (is_set_field fieldMask) fs))
        +:+ where_clauses fs).
Proof.
  split; [apply BuildUpdateQuery_result_spec |].
  split; [apply is_set_field_iff |].
  split; [| apply BuildUpdateQuery_result_exact].
  intros fs' Hsame. rewrite !BuildUpdateQuery_result_spec.
  destruct (same_declaration_clauses fieldMask fs fs' Hsame) as [-> ->].
  reflexivity.
Qed.

Lemma update_set_terms_mask_gated_witness :
  BuildUpdateQuery_result "t" two_column_record {[ "Name" := 0 ]}
  = "UPDATE t SET name = :name,WHERE id = :id"
  /\ BuildUpdateQuery_result "t"
       [ mkField "ID" "int32" [("db", "id"); ("primary_key", "y")] (Some (VInt32 0));
         mkField "Name" "string" [("db", "name")] (Some (VString "")) ] {[ "Name" := 0 ]}
     = BuildUpdateQuery_result "t" two_column_record {[ "Name" := 0 ]}.
Proof.
  split; [vm_compute; reflexivity |].
  apply (proj1 (proj2 (proj2
           (update_set_terms_mask_gated "t" two_column_record {[ "Name" := 0 ]})))).
  repeat constructor.
Defined.

(** *** The empty selection *)

Lemma untagged_not_where (f : StructField) : dbName_of f = "" -> is_where_field f = false.
Proof.
  intros Hdb. unfold is_where_field. rewrite Hdb. cbn.
  now rewrite andb_false_r.
Qed.

Lemma unmasked_not_set (fieldMask : gmap string Z) (f : StructField) :
  fieldMask !! Name f = None -> is_set_field fieldMask f = false.
Proof.
  intros Hm. unfold is_set_field, mask_has. rewrite Hm. apply andb_false_r.
Qed.

(** C10, the claim as stated fails: the only tagged field is a
    primary-key field with the column name [id], the mask is empty, and the
    text has no WHERE clause at all, because the field is not exported. *)
Lemma update_empty_selection_counterexample :
  dbName_of unexported_id = "id"
  /\ isPrimaryKey_of unexported_id = true
  /\ BuildUpdateQuery_result "t" [unexported_id] ∅ = "UPDATE t SET "
  /\ BuildUpdateQuery_result "t" [unexported_id] ∅ <> "UPDATE t SET WHERE id = :id".
Proof. repeat split; vm_compute; try reflexivity; discriminate. Qed.

(** C10 (amended): for every record whose only column-tagged field is an
    exported primary-key field with a non-empty column name, and every mask
    that selects no field of the record, BuildUpdateQuery does not fail: it
    returns what the resolver gives for the text
    [UPDATE <table> SET WHERE <pkCol> = :<pkCol>], whose SET list is empty,
    after the one-shot replacement of [, WHERE]; that replacement leaves
    the text as it is when table and column name contain no comma. *)
Theorem update_empty_selection
    (Named : string -> list StructField -> NamedResult)
    (target : string) (pre post : list StructField) (pk : StructField)
    (fieldMask : gmap string Z) :
  Forall (fun f => dbName_of f = "") (pre ++ post) ->
  CanInterface pk = true -> dbName_of pk <> "" -> isPrimaryKey_of pk = true ->
  Forall (fun f => fieldMask !! Name f = None) (pre ++ pk :: post) ->
  let text := "UPDATE " +:+ target +:+ " SET WHERE " +:+ dbName_of pk
              +:+ " = :" +:+ dbName_of pk in
  BuildUpdateQuery Named target (pre ++ pk :: post) fieldMask
  = Ok (Named (Replace text ", WHERE" " WHERE" 1) (pre ++ pk :: post))
  /\ (no_char "," target = true -> no_char "," (dbName_of pk) = true ->
      Replace text ", WHERE" " WHERE" 1 = text).
Proof.
  intros Hothers Hread Hcol Hpk Hmask text. split.
  - unfold BuildUpdateQuery. do 2 f_equal.
    rewrite BuildUpdateQuery_result_spec. f_equal.
    unfold set_clauses, where_clauses.
    rewrite (filter_none (is_set_field fieldMask)).
    2:{ eapply Forall_impl; [exact Hmask |]. intros f. apply unmasked_not_set. }
    apply Forall_app in Hothers as [Hpre Hpost].
    rewrite List.filter_app. cbn [List.filter].
    rewrite (filter_none is_where_field pre).
    2:{ eapply Forall_impl; [exact Hpre |]. intros f. apply untagged_not_where. }
    rewrite (filter_none is_where_field post).
    2:{ eapply Forall_impl; [exact Hpost |]. intros f. apply untagged_not_where. }
    unfold is_where_field. rewrite Hread, Hpk.
    apply String.eqb_neq in Hcol. rewrite Hcol.
    cbn [andb negb app map concat_strings fold_right].
    unfold where_clause, text.
    rewrite append_nil_l, append_nil_r. reflexivity.
  - intros Ht Hc. apply Replace_no_first. unfold text.
    rewrite !no_char_app, Ht, Hc. reflexivity.
Qed.

Lemma update_empty_selection_witness :
  BuildUpdateQuery (fun q _ => (q, [], None)) "t" key_only_record ∅
  = Ok ("UPDATE t SET WHERE id = :id", [], None).
Proof.
  pose proof (update_empty_selection (fun q _ => (q, [], None)) "t"
                [] [mkField "OrderBy" "string" [] (Some (VString "id"))]
                (mkField "ID" "int32" [("db", "id"); ("primary_key", "y")] (Some (VInt32 7)))
                ∅) as H.
  exact (proj1 (H ltac:(repeat constructor) eq_refl ltac:(discriminate) eq_refl
                  ltac:(repeat constructor))).
Defined.

(** *** The comma before WHERE and the primary keys *)

Lemma set_terms_end_in_comma (l : list StructField) :
  l <> [] -> exists terms, concat_strings (map set_clause l) = terms +:+ ",".
Proof.
  induction l as [|x l IH]; [congruence |]. intros _.
  cbn [map concat_strings fold_right]. fold (concat_strings (map set_clause l)).
  destruct l as [|y l].
  - exists (dbName_of x +:+ " = :" +:+ dbName_of x).
    cbn [map concat_strings fold_right]. rewrite append_nil_r.
    apply set_clause_split.
  - destruct IH as [terms Hterms]; [discriminate |].
    exists (set_clause x +:+ terms). rewrite Hterms. now rewrite append_assoc.
Qed.

(** With those names, a record that has a SET term and a WHERE clause gets
    a text in which the comma of the last SET term is still there, right
    before the first [WHERE]. *)
Lemma update_comma_before_where (target : string) (fs : list StructField)
    (fieldMask : gmap string Z) (f g : StructField) :
  no_char "," target = true -> update_names_ok fs ->
  In f fs -> is_set_field fieldMask f = true ->
  In g fs -> is_where_field g = true ->
  exists terms rest,
    BuildUpdateQuery_result target fs fieldMask
    = "UPDATE " +:+ target +:+ " SET " +:+ terms +:+ ",WHERE " +:+ rest.
Proof.
  intros Ht Hok Hf Hsf Hg Hwg.
  rewrite BuildUpdateQuery_result_exact by assumption.
  assert (Hs : exists terms, set_clauses fieldMask fs = terms +:+ ",").
  { apply set_terms_end_in_comma.
    assert (Hin : In f (List.filter (is_set_field fieldMask) fs))
      by (apply List.filter_In; auto).
    intros Hnil. rewrite Hnil in Hin. destruct Hin. }
  assert (Hw : exists rest, where_clauses fs = "WHERE " +:+ rest).
  { unfold where_clauses.
    assert (Hin : In g (List.filter is_where_field fs))
      by (apply List.filter_In; auto).
    destruct (List.filter is_where_field fs) as [|x l]; [destruct Hin |].
    cbn [map concat_strings fold_right]. unfold where_clause at 1.
    eexists. rewrite !append_assoc. reflexivity. }
  destruct Hs as [terms ->], Hw as [rest ->].
  exists terms, rest. now rewrite !append_assoc.
Qed.

Lemma update_comma_before_where_witness :
  exists terms rest,
    BuildUpdateQuery_result "test_table" TestStruct {[ "Date" := 0; "GeoLat" := 0 ]}
    = "UPDATE " +:+ "test_table" +:+ " SET " +:+ terms +:+ ",WHERE " +:+ rest.
Proof.
  apply (update_comma_before_where "test_table" TestStruct {[ "Date" := 0; "GeoLat" := 0 ]}
           (mkField "Date" "string" [("db", "date"); ("nullable", "y")]
              (Some (VString "2019-01-01")))
           (mkField "ID" "int32" [("db", "id"); ("primary_key", "y")] (Some (VInt32 1)))).
  - reflexivity.
  - repeat constructor.
  - cbn. tauto.
  - vm_compute. reflexivity.
  - cbn. tauto.
  - reflexivity.
Defined.

(** C1, the code at a record with one masked column and a primary key: the
    SET term keeps its comma, which stands right before [WHERE].  The
    clean-up looks for a comma followed by a blank, and the SET terms are
    written without a blank after their comma. *)
Theorem update_keeps_trailing_comma :
  BuildUpdateQuery_result "t" two_column_record {[ "Name" := 0 ]}
  = "UPDATE t SET name = :name,WHERE id = :id".
Proof. vm_compute. reflexivity. Qed.

(** The same on the record of the test file, whose commented-out
    expectation has [, ] between the terms and no comma before [WHERE]. *)
Example update_TestStruct :
  BuildUpdateQuery_result "test_table" TestStruct
    {[ "Date" := 0; "GeoLat" := 0; "GeoLng" := 0 ]}
  = "UPDATE test_table SET date = :date,geolocation_lat = :geolocation_lat,geolocation_lng = :geolocation_lng,WHERE id = :id".
Proof. vm_compute. reflexivity. Qed.

(** C3, the code at a record with two primary-key-tagged fields: the loop
    of BuildUpdateQuery has no [break] and writes one [WHERE] clause per
    primary-key field, one after the other. *)
Theorem update_two_keys_two_wheres :
  BuildUpdateQuery_result "t" two_key_record ∅
  = "UPDATE t SET WHERE order_id = :order_idWHERE line_no = :line_no".
Proof. vm_compute. reflexivity. Qed.

(** Without a primary-key field that passes the guard of the loop the
    statement of BuildUpdateQuery has no WHERE clause: it updates the whole
    table. *)
Theorem update_without_key (target : string) (fs : list StructField)
    (fieldMask : gmap string Z) :
  Forall (fun f => is_where_field f = false) fs ->
  BuildUpdateQuery_result target fs fieldMask
  = Replace ("UPDATE " +:+ target +:+ " SET " +:+ set_clauses fieldMask fs)
      ", WHERE" " WHERE" 1.
Proof.
  intros Hno. rewrite BuildUpdateQuery_result_spec. unfold where_clauses.
  rewrite (filter_none is_where_field fs Hno). cbn [map concat_strings fold_right].
  now rewrite append_nil_r.
Qed.

Lemma update_without_key_witness :
  BuildUpdateQuery_result "t" [mkField "Name" "string" [("db", "name")] (Some (VString "ann"))]
    {[ "Name" := 0 ]}
  = Replace ("UPDATE " +:+ "t" +:+ " SET " +:+ "name = :name,") ", WHERE" " WHERE" 1.
Proof.
  rewrite (update_without_key "t"
             [mkField "Name" "string" [("db", "name")] (Some (VString "ann"))]
             {[ "Name" := 0 ]}); [vm_compute; reflexivity | repeat constructor].
Defined.

(** ** Further properties of [BuildUpdateQuery] *)

Lemma mask_has_dom (fieldMask : gmap string Z) (name : string) :
  mask_has fieldMask name = true <-> name ∈ dom fieldMask.
Proof.
  unfold mask_has. rewrite elem_of_dom.
  destruct (fieldMask !! name) as [v|]; split; intros H;
    try reflexivity; try discriminate; eauto.
  destruct H as [v H]. discriminate H.
Qed.

Lemma set_clauses_ext (M1 M2 : gmap string Z) (fs : list StructField) :
  (forall f, In f fs -> is_set_field M1 f = is_set_field M2 f) ->
  set_clauses M1 fs = set_clauses M2 fs.
Proof.
  intros H. unfold set_clauses. now rewrite (List.filter_ext_in _ _ fs H).
Qed.

(** The [int32] values of the mask are never read: two masks with the same
    keys give the same statement. *)
Theorem update_mask_values_ignored (target : string) (fs : list StructField)
    (M1 M2 : gmap string Z) :
  dom M1 = dom M2 ->
  BuildUpdateQuery_result target fs M1 = BuildUpdateQuery_result target fs M2.
Proof.
  intros Hdom. rewrite !BuildUpdateQuery_result_spec.
  rewrite (set_clauses_ext M1 M2); [reflexivity |].
  intros f _. unfold is_set_field. f_equal.
  destruct (mask_has M1 (Name f)) eqn:H1, (mask_has M2 (Name f)) eqn:H2;
    try reflexivity.
  - apply mask_has_dom in H1. rewrite Hdom in H1. apply mask_has_dom in H1. congruence.
  - apply mask_has_dom in H2. rewrite <- Hdom in H2. apply mask_has_dom in H2. congruence.
Qed.

Lemma update_mask_values_ignored_witness :
  BuildUpdateQuery_result "t" two_column_record {[ "Name" := 0 ]}
  = BuildUpdateQuery_result "t" two_column_record {[ "Name" := 7 ]}.
Proof.
  apply update_mask_values_ignored. now rewrite !dom_singleton_L.
Defined.

(** A key of the mask counts only through the fields it names that can get
    a SET term: adding a key that names no field, a field without column
    name, an unexported field or a primary-key field changes nothing.  In
    particular the mask cannot make BuildUpdateQuery set a primary key, and
    column names used as keys are ignored. *)
Theorem update_mask_key_without_effect (target : string) (fs : list StructField)
    (fieldMask : gmap string Z) (key : string) (v : Z) :
  Forall (fun f => Name f = key -> updatable f = false) fs ->
  BuildUpdateQuery_result target fs (<[key := v]> fieldMask)
  = BuildUpdateQuery_result target fs fieldMask.
Proof.
  intros Hkey. rewrite !BuildUpdateQuery_result_spec.
  rewrite (set_clauses_ext (<[key := v]> fieldMask) fieldMask); [reflexivity |].
  intros f Hin. rewrite List.Forall_forall in Hkey. specialize (Hkey f Hin).
  change (updatable f && mask_has (<[key := v]> fieldMask) (Name f)
          = updatable f && mask_has fieldMask (Name f)).
  destruct (decide (Name f = key)) as [Heq | Hne].
  - now rewrite (Hkey Heq).
  - unfold mask_has. now rewrite lookup_insert_ne by congruence.
Qed.

Lemma update_mask_key_without_effect_witness :
  BuildUpdateQuery_result "t" two_column_record (<[ "ID" := 1 ]> {[ "Name" := 0 ]})
  = BuildUpdateQuery_result "t" two_column_record {[ "Name" := 0 ]}.
Proof.
  apply update_mask_key_without_effect.
  repeat constructor; cbn; intros H; try reflexivity; discriminate H.
Defined.

(** The WHERE clause is collected apart from the SET terms and appended
    after the loop: the primary-key field may stand anywhere among the
    fields before it that are not primary keys themselves. *)
Theorem update_key_position (target : string) (pre post : list StructField)
    (pk : StructField) (fieldMask : gmap string Z) :
  Forall (fun f => is_where_field f = false) pre -> is_where_field pk = true ->
  BuildUpdateQuery_result target (pre ++ pk :: post) fieldMask
  = BuildUpdateQuery_result target (pk :: pre ++ post) fieldMask.
Proof.
  intros Hpre Hpk. rewrite !BuildUpdateQuery_result_spec.
  assert (Hset : is_set_field fieldMask pk = false).
  { unfold is_where_field in Hpk. unfold is_set_field.
    apply andb_true_iff in Hpk as [_ Hpk]. rewrite Hpk.
    cbn [negb]. now rewrite andb_false_r. }
  unfold set_clauses, where_clauses.
  rewrite !List.filter_app. cbn [List.filter]. rewrite !List.filter_app.
  rewrite Hset, Hpk, (filter_none is_where_field pre Hpre). reflexivity.
Qed.

Lemma update_key_position_witness :
  BuildUpdateQuery_result "t"
    [ mkField "Name" "string" [("db", "name")] (Some (VString "ann"));
      mkField "ID" "int32" [("db", "id"); ("primary_key", "y")] (Some (VInt32 7)) ]
    {[ "Name" := 0 ]}
  = BuildUpdateQuery_result "t" two_column_record {[ "Name" := 0 ]}.
Proof.
  apply (update_key_position "t"
           [mkField "Name" "string" [("db", "name")] (Some (VString "ann"))] []
           (mkField "ID" "int32" [("db", "id"); ("primary_key", "y")] (Some (VInt32 7)))).
  - repeat constructor.
  - reflexivity.
Defined.

(** ** Further properties of [BuildDeleteQuery] *)




(** Without a primary-key-tagged field BuildDeleteQuery reports nothing: its
    statement ends with a dangling [ WHERE ]. *)
Theorem delete_without_key (target : string) (fs : list StructField) :
  Forall (fun f => isPrimaryKey_of f = false) fs ->
  BuildDeleteQuery_result target fs
  = match FieldByName fs "IsActive" with
    | Some isActive =>
      "UPDATE " +:+ target +:+ " SET " +:+ dbName_of isActive +:+ " = :"
      +:+ dbName_of isActive +:+ " WHERE "
    | None => "DELETE FROM " +:+ target +:+ " WHERE "
    end.
Proof.
  intros Hno. unfold BuildDeleteQuery_result. rewrite delete_loop_spec.
  unfold pk_clause.
  assert (Hfind : List.find isPrimaryKey_of fs = None).
  { induction Hno as [|f fs Hf _ IH]; [reflexivity |]. cbn [List.find]. now rewrite Hf. }
  rewrite Hfind. apply append_nil_r.
Qed.

Lemma delete_without_key_witness :
  BuildDeleteQuery_result "t" keyless_record = "DELETE FROM t WHERE ".
Proof.
  apply (delete_without_key "t" keyless_record). repeat constructor.
Defined.

(** ** Further properties of [BuildCreateQuery] *)

(** When no field is inserted (an empty struct, a record left at its zero
    values, a record with its key only) BuildCreateQuery returns a
    statement with two empty lists rather than an error. *)
Theorem create_nothing_to_insert (target : string) (fs : list StructField) :
  Forall (fun f => create_ok f = true) fs ->
  Forall (fun f => insertable f = false) fs ->
  no_char "(" target = true ->
  BuildCreateQuery_result target fs = Ok ("INSERT INTO " +:+ target +:+ " () VALUES ()").
Proof.
  intros Hok Hnone Ht. rewrite (BuildCreateQuery_result_spec target fs Hok). f_equal.
  assert (Hcols : inserted_columns fs = []).
  { unfold inserted_columns. now rewrite (filter_none insertable fs Hnone). }
  rewrite Hcols.
  apply (ReplaceAll_create target (create_lead fs) []).
  - exact Ht.
  - constructor.
  - constructor.
  - apply create_lead_cases.
Qed.

Lemma create_nothing_to_insert_witness :
  BuildCreateQuery_result "t" scenario_record = Ok ("INSERT INTO " +:+ "t" +:+ " () VALUES ()").
Proof.
  apply (create_nothing_to_insert "t" scenario_record); [| | reflexivity];
    repeat constructor.
Defined.

(** ** Further properties of [BuildReadQuery] *)

Lemma read_loop_driver (nh1 nh2 : string) (fs : list StructField) :
  Forall (fun f => nullable_of f = "") fs ->
  forall fields predicate,
    read_loop nh1 fs fields predicate = read_loop nh2 fs fields predicate.
Proof.
  induction 1 as [|f fs Hf _ IH]; intros fields predicate; [reflexivity |].
  cbn [read_loop]. rewrite Hf. cbn [String.eqb negb].
  destruct (negb (String.eqb (dbName_of f) "")); cbn [mbind outcome_bind];
    (match goal with |- mbind _ ?m = _ => destruct m as [[|]|] end;
     cbn [mbind outcome_bind]; [apply IH | apply IH | reflexivity]).
Qed.

(** The driver variable matters for nullable-tagged fields only: on a
    record without them BuildReadQuery gives the same outcome for every
    value of the variable. *)
Theorem read_driver_only_for_nullable (driver1 driver2 target : string)
    (fs : list StructField) :
  Forall (fun f => nullable_of f = "") fs ->
  BuildReadQuery_result driver1 target fs = BuildReadQuery_result driver2 target fs.
Proof.
  intros Hno. unfold BuildReadQuery_result.
  now rewrite (read_loop_driver (nullHandler_of driver1) (nullHandler_of driver2) fs Hno).
Qed.

Lemma read_driver_only_for_nullable_witness :
  BuildReadQuery_result "pgsql" "t" two_column_record
  = BuildReadQuery_result "" "t" two_column_record.
Proof.
  apply read_driver_only_for_nullable. repeat constructor.
Defined.

(** *** The clean-up of BuildReadQuery on the projection *)

Lemma HasPrefix_app_stop (c : ascii) (p : string) :
  no_char c p = true ->
  forall e Y, HasPrefix e p = false -> HasPrefix (e +:+ String c Y) p = false.
Proof.
  induction p as [|q p IH]; intros Hp e Y He; [discriminate He |].
  cbn [no_char] in Hp. apply andb_true_iff in Hp as [Hq Hp].
  apply negb_true_iff in Hq.
  destruct e as [|a e].
  - rewrite append_nil_l. cbn [HasPrefix]. now rewrite Ascii.eqb_sym, Hq.
  - rewrite append_cons. cbn [HasPrefix] in *.
    destruct (Ascii.eqb a q); [| reflexivity]. cbn [andb] in *. now apply IH.
Qed.

Lemma default_literal_cases (typeName : string) :
  default_literal typeName = "" \/ default_literal typeName = "0"
  \/ default_literal typeName = "0.0" \/ default_literal typeName = "''".
Proof.
  unfold default_literal, getDefault.
  destruct (name_in integer_type_names typeName); [tauto |].
  destruct (name_in float_type_names typeName); [tauto |].
  destruct (String.eqb typeName "bool"); [tauto |].
  destruct (String.eqb typeName "string"); tauto.
Qed.

Lemma nullHandler_plain (sqlDriver : string) :
  no_char "," (nullHandler_of sqlDriver) = true
  /\ starts_with "F" (nullHandler_of sqlDriver) = false
  /\ nullHandler_of sqlDriver <> "".
Proof.
  unfold nullHandler_of. destruct (String.eqb sqlDriver "pgsql");
    repeat split; discriminate.
Qed.

Lemma projection_item_expr (nullHandler : string) (f : StructField) :
  projection_item nullHandler f
  = if projected f then projection_expr nullHandler f +:+ ", " else "".
Proof.
  unfold projection_item, projected, projection_expr.
  destruct (String.eqb (nullable_of f) ""); cbn [negb orb].
  - destruct (String.eqb (dbName_of f) ""); reflexivity.
  - now rewrite !append_assoc.
Qed.

Lemma projection_projected (nullHandler : string) (fs : list StructField) :
  projection nullHandler fs
  = concat_strings (map (fun f => projection_expr nullHandler f +:+ ", ")
                      (List.filter projected fs)).
Proof.
  unfold projection. induction fs as [|f fs IH]; [reflexivity |].
  cbn [map concat_strings fold_right List.filter].
  fold (concat_strings (map (projection_item nullHandler) fs)).
  rewrite IH, projection_item_expr.
  destruct (projected f); reflexivity.
Qed.

(** A comma and a blank that [FROM] does not follow are copied. *)
Lemma replace_comma_blank (new : string) (n : Z) (Z0 : string) :
  HasPrefix Z0 "FROM" = false ->
  replace_from ", FROM" new 0 n (", " +:+ Z0)
  = ", " +:+ replace_from ", FROM" new 0 n Z0.
Proof.
  intros HZ. change (", " +:+ Z0) with (String "," (String " " Z0)).
  rewrite replace_from_keep by (now rewrite !HasPrefix_cons).
  rewrite replace_from_keep by reflexivity.
  reflexivity.
Qed.

Section ReadCleanUp.

Variable nullHandler : string.
Hypothesis nullHandler_no_comma : no_char "," nullHandler = true.
Hypothesis nullHandler_not_F : starts_with "F" nullHandler = false.
Hypothesis nullHandler_not_empty : nullHandler <> "".

(** The replacement walks over one projected expression. *)
Lemma projection_expr_passes (new : string) (n : Z) (f : StructField) (X : string) :
  read_name_ok f = true ->
  replace_from ", FROM" new 0 n (projection_expr nullHandler f +:+ X)
  = projection_expr nullHandler f +:+ replace_from ", FROM" new 0 n X.
Proof.
  unfold read_name_ok, projection_expr. intros [Hc Hfrom]%andb_true_iff.
  destruct (String.eqb (nullable_of f) ""); cbn [negb orb] in *.
  - now apply replace_from_no_first.
  - set (lit := default_literal (TypeName f)).
    assert (Hlit : no_char "," lit = true
                   /\ forall Y, starts_with "F" (lit +:+ ") as " +:+ Y) = false).
    { subst lit. destruct (default_literal_cases (TypeName f)) as [-> | [-> | [-> | ->]]];
        split; reflexivity. }
    destruct Hlit as [Hlit1 Hlit2].
    rewrite !append_assoc.
    rewrite (replace_from_no_first _ _ _ nullHandler) by exact nullHandler_no_comma.
    rewrite (replace_from_no_first _ _ _ (dbName_of f)) by exact Hc.
    rewrite replace_comma_blank by (apply starts_with_HasPrefix, Hlit2).
    rewrite (replace_from_no_first _ _ _ lit) by exact Hlit1.
    rewrite (replace_from_no_first _ _ _ ") as ") by reflexivity.
    rewrite (replace_from_no_first _ _ _ (dbName_of f)) by exact Hc.
    reflexivity.
Qed.

(** What follows a comma of the projection does not begin with [FROM]. *)
Lemma projection_expr_not_FROM (f : StructField) (Y : string) :
  read_name_ok f = true ->
  HasPrefix (projection_expr nullHandler f +:+ ", " +:+ Y) "FROM" = false.
Proof.
  unfold read_name_ok, projection_expr. intros [Hc Hfrom]%andb_true_iff.
  destruct (String.eqb (nullable_of f) ""); cbn [negb orb] in *.
  - apply negb_true_iff in Hfrom.
    now apply (HasPrefix_app_stop "," "FROM" eq_refl (dbName_of f) (" " +:+ Y)).
  - apply starts_with_HasPrefix. rewrite !append_assoc, starts_with_app.
    apply String.eqb_neq in nullHandler_not_empty. now rewrite nullHandler_not_empty.
Qed.

(** The replacement finds its pattern at the end of a non-empty projection
    and nowhere before. *)
Lemma replace_projection (T : string) (l : list StructField) :
  forall f, Forall (fun g => read_name_ok g = true) (f :: l) ->
    replace_from ", FROM" " FROM" 0 1
      (concat_strings (map (fun g => projection_expr nullHandler g +:+ ", ") (f :: l))
       +:+ "FROM " +:+ T)
    = String.concat ", " (map (projection_expr nullHandler) (f :: l)) +:+ " FROM " +:+ T.
Proof.
  induction l as [|g l IH]; intros f Hok;
    apply Forall_cons_1 in Hok as [Hf Hl].
  - cbn [map concat_strings fold_right].
    rewrite !append_assoc, (projection_expr_passes _ _ f _ Hf), append_nil_l.
    change (", " +:+ "FROM " +:+ T) with (", FROM" +:+ " " +:+ T).
    rewrite replace_from_match by discriminate.
    change (1 - 1) with 0. rewrite replace_from_zero. reflexivity.
  - specialize (IH g Hl).
    change (String.concat ", " (map (projection_expr nullHandler) (f :: g :: l)))
      with (projection_expr nullHandler f +:+ ", "
            +:+ String.concat ", " (map (projection_expr nullHandler) (g :: l))).
    rewrite !append_assoc, <- IH.
    cbn [map concat_strings fold_right].
    rewrite !append_assoc, (projection_expr_passes _ _ f _ Hf).
    rewrite replace_comma_blank; [reflexivity |].
    apply (projection_expr_not_FROM g).
    now apply Forall_cons_1 in Hl as [Hg _].
Qed.

End ReadCleanUp.

(** For a table name without comma and column names that have no comma
    and, where projected bare, do not begin with [FROM], the clean-up of
    BuildReadQuery removes the comma after the last projected expression
    and nothing else: the statement is
    [SELECT <e1>, ..., <en> FROM <table> WHERE true<filters>], and
    [SELECT FROM <table> WHERE true] when nothing is projected. *)
Theorem read_text_for_plain_names (sqlDriver target : string) (fs : list StructField) :
  Forall (fun f => read_ok f = true) fs ->
  Forall (fun f => read_name_ok f = true) fs ->
  no_char "," target = true ->
  BuildReadQuery_result sqlDriver target fs
  = Ok (select_from (map (projection_expr (nullHandler_of sqlDriver))
                       (List.filter projected fs)) target
        +:+ " WHERE true" +:+ filters fs).
Proof.
  intros Hok Hnames Ht.
  rewrite (BuildReadQuery_result_predicate sqlDriver target fs Hok). do 2 f_equal.
  unfold Replace. rewrite projection_projected.
  pose proof (filter_Forall _ projected fs Hnames) as Hl.
  destruct (nullHandler_plain sqlDriver) as (Hn1 & Hn2 & Hn3).
  destruct (List.filter projected fs) as [|f l].
  - cbn [map concat_strings fold_right select_from]. rewrite append_nil_l.
    change ("SELECT " +:+ "FROM " +:+ target) with ("SELECT FROM " +:+ target).
    apply (Replace_no_first "," " FROM" " FROM"). rewrite no_char_app, Ht. reflexivity.
  - rewrite (replace_from_no_first "," " FROM" " FROM" "SELECT ") by reflexivity.
    rewrite (replace_projection _ Hn1 Hn2 Hn3 target l f Hl). reflexivity.
Qed.

Lemma read_text_for_plain_names_witness :
  BuildReadQuery_result "" "test_table" TestStruct
  = Ok (select_from
          ["id"; "ifnull(name, '') as name"; "ifnull(date, '') as date";
           "ifnull(geolocation_lat, 0.0) as geolocation_lat";
           "ifnull(geolocation_lng, 0.0) as geolocation_lng"; "is_active"; "property_id"]
          "test_table"
        +:+ " WHERE true"
        +:+ " AND id = :id AND date LIKE :date AND geolocation_lat = :geolocation_lat AND geolocation_lng = :geolocation_lng").
Proof.
  apply (read_text_for_plain_names "" "test_table" TestStruct).
  - repeat constructor.
  - repeat constructor.
  - reflexivity.
Defined.

(** A bare column whose name begins with [FROM] and that follows a bare
    column takes the clean-up for itself: the comma between the two columns
    is replaced, and the comma in front of the real [FROM] stays. *)
Theorem read_cleanup_taken_by_FROM_column (sqlDriver target : string)
    (first second : StructField) (rest : list StructField) :
  Forall (fun f => read_ok f = true) (first :: second :: rest) ->
  nullable_of first = "" -> dbName_of first <> "" ->
  no_char "," (dbName_of first) = true ->
  nullable_of second = "" -> HasPrefix (dbName_of second) "FROM" = true ->
  BuildReadQuery_result sqlDriver target (first :: second :: rest)
  = Ok ("SELECT " +:+ dbName_of first +:+ " " +:+ dbName_of second +:+ ", "
        +:+ projection (nullHandler_of sqlDriver) rest +:+ "FROM " +:+ target
        +:+ " WHERE true" +:+ filters (first :: second :: rest)).
Proof.
  intros Hok Hn1 Hc1 Hcomma Hn2 Hfrom.
  rewrite (BuildReadQuery_result_predicate sqlDriver target _ Hok).
  f_equal. rewrite <- !append_assoc. do 2 f_equal. rewrite !append_assoc.
  unfold Replace, projection. cbn [map concat_strings fold_right].
  fold (concat_strings (map (projection_item (nullHandler_of sqlDriver)) rest)).
  destruct (HasPrefix_split _ _ Hfrom) as [tail Htail].
  assert (Hc2 : String.eqb (dbName_of second) "" = false)
    by (rewrite Htail; reflexivity).
  apply String.eqb_neq in Hc1.
  unfold projection_item at 1 2. rewrite Hn1, Hn2, Hc1, Hc2. cbn [String.eqb negb].
  rewrite Htail, !append_assoc.
  rewrite (replace_from_no_first "," " FROM" " FROM" "SELECT ") by reflexivity.
  rewrite (replace_from_no_first "," " FROM" " FROM" (dbName_of first)) by exact Hcomma.
  change (", " +:+ "FROM" +:+ ?x) with (", FROM" +:+ x).
  rewrite replace_from_match by discriminate.
  change (1 - 1) with 0. rewrite replace_from_zero. reflexivity.
Qed.

Lemma read_cleanup_taken_by_FROM_column_witness :
  BuildReadQuery_result "" "t" from_column_record
  = Ok ("SELECT " +:+ "id" +:+ " " +:+ "FROM_DATE" +:+ ", " +:+ "ifnull(name, '') as name, "
        +:+ "FROM " +:+ "t" +:+ " WHERE true" +:+ "").
Proof.
  apply (read_cleanup_taken_by_FROM_column "" "t"
           (mkField "ID" "int32" [("db", "id"); ("primary_key", "y")] (Some (VInt32 0)))
           (mkField "FromDate" "string" [("db", "FROM_DATE")] (Some (VString "")))
           [mkField "Name" "string" [("db", "name"); ("nullable", "y")] (Some (VString ""))]).
  - repeat constructor.
  - reflexivity.
  - discriminate.
  - reflexivity.
  - reflexivity.
  - reflexivity.
Defined.

(** ** Fields the builders do not see *)

Lemma filter_filter_impl {A : Type} (p g : A -> bool) (l : list A) :
  (forall x, p x = true -> g x = true) ->
  List.filter p (List.filter g l) = List.filter p l.
Proof.
  intros Himpl. induction l as [|x l IH]; [reflexivity |].
  cbn [List.filter]. destruct (g x) eqn:Hg; cbn [List.filter].
  - now rewrite IH.
  - destruct (p x) eqn:Hp; [| exact IH].
    rewrite (Himpl x Hp) in Hg. discriminate Hg.
Qed.


(** BuildUpdateQuery sees the exported fields with a column name only:
    dropping every other field from the record (transient fields such as
    [OrderBy], unexported fields) leaves its statement as it is. *)
Theorem update_sees_guarded_fields_only (target : string) (fs : list StructField)
    (fieldMask : gmap string Z) :
  BuildUpdateQuery_result target (List.filter update_guard fs) fieldMask
  = BuildUpdateQuery_result target fs fieldMask.
Proof.
  rewrite !BuildUpdateQuery_result_spec. unfold set_clauses, where_clauses.
  rewrite !filter_filter_impl; [reflexivity | |].
  - intros f. unfold is_where_field, update_guard. now intros [H _]%andb_true_iff.
  - intros f. unfold is_set_field, update_guard.
    now intros [[H _]%andb_true_iff _]%andb_true_iff.
Qed.


Lemma projection_filter_projected (nullHandler : string) (fs : list StructField) :
  projection nullHandler (List.filter projected fs) = projection nullHandler fs.
Proof.
  unfold projection. induction fs as [|f fs IH]; [reflexivity |].
  cbn [List.filter]. destruct (projected f) eqn:Hp;
    cbn [map concat_strings fold_right].
  - fold (concat_strings (map (projection_item nullHandler) (List.filter projected fs))).
    fold (concat_strings (map (projection_item nullHandler) fs)). now rewrite IH.
  - fold (concat_strings (map (projection_item nullHandler) fs)).
    now rewrite IH, projection_item_expr, Hp.
Qed.

(** On a record on which it returns, BuildReadQuery sees the fields with a
    [db] or a [nullable] tag only: dropping the other fields leaves its
    statement as it is. *)
Theorem read_sees_tagged_fields_only (sqlDriver target : string) (fs : list StructField) :
  Forall (fun f => read_ok f = true) fs ->
  BuildReadQuery_result sqlDriver target (List.filter projected fs)
  = BuildReadQuery_result sqlDriver target fs.
Proof.
  intros Hok.
  rewrite (BuildReadQuery_result_spec sqlDriver target fs Hok).
  rewrite (BuildReadQuery_result_spec sqlDriver target _ (filter_Forall _ projected fs Hok)).
  rewrite projection_filter_projected. unfold filters.
  rewrite filter_filter_impl; [reflexivity |].
  intros f. unfold has_filter, projected. intros [_ H]%andb_true_iff.
  rewrite H. apply orb_true_r.
Qed.

Lemma read_sees_tagged_fields_only_witness :
  BuildReadQuery_result "" "test_table" (List.filter projected TestStruct)
  = BuildReadQuery_result "" "test_table" TestStruct.
Proof.
  apply read_sees_tagged_fields_only. repeat constructor.
Defined.

(** For a table and columns with plain names, the statement of
    BuildCreateQuery is made of the inserted fields alone: dropping the
    primary key, the fields at their zero value and the fields without
    column name from a record it can read leaves the statement as it is,
    wherever these fields stand. *)
Theorem create_sees_inserted_fields_only (target : string) (fs : list StructField) :
  Forall (fun f => create_ok f = true) fs ->
  no_char "(" target = true ->
  Forall (fun c => sql_name c = true) (inserted_columns fs) ->
  BuildCreateQuery_result target (List.filter insertable fs)
  = BuildCreateQuery_result target fs.
Proof.
  intros Hok Ht Hcols.
  rewrite (BuildCreateQuery_result_spec target fs Hok).
  rewrite (BuildCreateQuery_result_spec target _ (filter_Forall _ insertable fs Hok)).
  assert (Hsame : inserted_columns (List.filter insertable fs) = inserted_columns fs).
  { unfold inserted_columns. now rewrite filter_filter_impl. }
  rewrite Hsame. f_equal.
  rewrite !ReplaceAll_create;
    auto using create_lead_cases, inserted_columns_named.
Qed.

Lemma create_sees_inserted_fields_only_witness :
  BuildCreateQuery_result "test_table" (List.filter insertable TestStruct)
  = BuildCreateQuery_result "test_table" TestStruct.
Proof.
  apply create_sees_inserted_fields_only.
  - repeat constructor.
  - reflexivity.
  - repeat constructor.
Defined.

(** A record on which no field contributes a filter (a template left at
    its zero values, say) gets the bare predicate [ WHERE true]: the
    statement selects the whole table. *)
Theorem read_without_filters (sqlDriver target : string) (fs : list StructField) :
  Forall (fun f => read_ok f = true) fs ->
  Forall (fun f => has_filter f = false) fs ->
  BuildReadQuery_result sqlDriver target fs
  = Ok (Replace ("SELECT " +:+ projection (nullHandler_of sqlDriver) fs
                 +:+ "FROM " +:+ target) ", FROM" " FROM" 1
        +:+ " WHERE true").
Proof.
  intros Hok Hno. rewrite (BuildReadQuery_result_predicate sqlDriver target fs Hok).
  unfold filters. rewrite (filter_none has_filter fs Hno).
  cbn [map concat_strings fold_right]. now rewrite append_nil_r.
Qed.

Lemma read_without_filters_witness :
  BuildReadQuery_result "" "t" scenario_record
  = Ok (Replace ("SELECT " +:+ "id, ifnull(name, '') as name, is_active, " +:+ "FROM " +:+ "t")
          ", FROM" " FROM" 1
        +:+ " WHERE true").
Proof.
  apply (read_without_filters "" "t" scenario_record); repeat constructor.
Defined.
